(** * acccheck: the text-similarity workbook checker

    A shallow embedding of [newaccuracycheck.py] (class
    [TextSimilarityAnalyzer]) and the properties of its path validation,
    similarity scoring, per-sheet processing and workbook aggregation.

    Python strings are modelled as byte strings ([string]); lowering acts
    on the ASCII letters, and statements that name the lowered text of a
    cell ask for ASCII text.  Python
    exceptions are values of [PyExc]; every method runs in the monad [M],
    which threads the observable world (log file, files written, calls made
    to the vectorizer) and keeps its changes when an exception is raised,
    as Python does. *)

From Stdlib Require Import String Ascii List ZArith Bool Lia.
From Stdlib Require Import DecimalString.
From Stdlib Require Import SpecFloat.
Import ListNotations.
Local Open Scope string_scope.
Local Open Scope Z_scope.

(** ** Python string primitives used by the program *)

Module PyStr.

Definition is_upper (c : ascii) : bool :=
  let n := nat_of_ascii c in (65 <=? n)%nat && (n <=? 90)%nat.

Definition lower_ascii (c : ascii) : ascii :=
  if is_upper c then ascii_of_nat (nat_of_ascii c + 32) else c.

(** [str.lower], on the ASCII letters.  Texts are byte strings here, and
    the lowering of letters outside ASCII is not modelled: statements that
    name the lowered text of a cell ask for [ascii_only] texts. *)
Fixpoint lower (s : string) : string :=
  match s with
  | EmptyString => EmptyString
  | String c s' => String (lower_ascii c) (lower s')
  end.

(** Truth value of a string: [bool(s)]. *)
Definition truthy (s : string) : bool :=
  match s with
  | EmptyString => false
  | String _ _ => true
  end.

Fixpoint skipn (n : nat) (s : string) : string :=
  match n, s with
  | O, _ => s
  | S _, EmptyString => EmptyString
  | S k, String _ s' => skipn k s'
  end.

Definition startswith (p s : string) : bool := String.prefix p s.

Fixpoint endswith_char (c : ascii) (s : string) : bool :=
  match s with
  | EmptyString => false
  | String a EmptyString => Ascii.eqb a c
  | String _ s' => endswith_char c s'
  end.

Fixpoint rfind_from (c : ascii) (s : string) (i last : Z) : Z :=
  match s with
  | EmptyString => last
  | String a s' => rfind_from c s' (i + 1) (if Ascii.eqb a c then i else last)
  end.

(** [s.rfind(c)] for a one-character needle: the last index, or -1. *)
Definition rfind (c : ascii) (s : string) : Z := rfind_from c s 0 (-1).

Fixpoint replace_go (old new : string) (skip : nat) (s : string) : string :=
  match s with
  | EmptyString => EmptyString
  | String c s' =>
      match skip with
      | S k => replace_go old new k s'
      | O =>
          if String.prefix old s
          then new ++ replace_go old new (Nat.pred (String.length old)) s'
          else String c (replace_go old new O s')
      end
  end.

Fixpoint intersperse (new s : string) : string :=
  match s with
  | EmptyString => EmptyString
  | String c s' => String c (new ++ intersperse new s')
  end.

(** [s.replace(old, new)]: every non-overlapping occurrence, left to right. *)
Definition replace (old new s : string) : string :=
  match old with
  | EmptyString => new ++ intersperse new s
  | String _ _ => replace_go old new O s
  end.

(** [s.split("/")] *)
Fixpoint split_slash (s : string) : list string :=
  match s with
  | EmptyString => [EmptyString]
  | String c s' =>
      if Ascii.eqb c "/" then EmptyString :: split_slash s'
      else match split_slash s' with
           | [] => [String c EmptyString]
           | h :: t => String c h :: t
           end
  end.

Fixpoint repeat_str (s : string) (n : nat) : string :=
  match n with
  | O => EmptyString
  | S k => s ++ repeat_str s k
  end.

(** [str(n)] for a Python int. *)
Definition str_of_int (z : Z) : string := NilZero.string_of_int (Z.to_int z).

End PyStr.

(** ** [os.path] (the POSIX flavour) *)

Module OsPath.
Import PyStr.

(** The scan of [genericpath._splitext] that skips leading dots: is there a
    character other than a dot in [p[filenameIndex : filenameIndex+steps]]? *)
Fixpoint has_non_dot (p : string) (filenameIndex steps : nat) : bool :=
  match steps with
  | O => false
  | S k =>
      match String.get filenameIndex p with
      | Some c => if Ascii.eqb c "." then has_non_dot p (S filenameIndex) k else true
      | None => true
      end
  end.

(** [os.path.splitext] *)
Definition splitext (p : string) : string * string :=
  let sepIndex := rfind "/" p in
  let dotIndex := rfind "." p in
  if (sepIndex <? dotIndex) &&
     has_non_dot p (Z.to_nat (sepIndex + 1)) (Z.to_nat (dotIndex - (sepIndex + 1)))
  then (String.substring 0 (Z.to_nat dotIndex) p, skipn (Z.to_nat dotIndex) p)
  else (p, EmptyString).

Definition isabs (p : string) : bool := startswith "/" p.

(** [os.path.join(a, b)] *)
Definition join (a b : string) : string :=
  if startswith "/" b then b
  else if negb (truthy a) || endswith_char "/" a then a ++ b
  else a ++ "/" ++ b.

Definition initial_slashes (path : string) : nat :=
  if startswith "/" path then
    if startswith "//" path && negb (startswith "///" path) then 2%nat else 1%nat
  else 0%nat.

(** One turn of the loop of [normpath]; [new_comps] is kept newest first. *)
Definition norm_step (slashes : nat) (new_comps : list string) (comp : string)
  : list string :=
  if String.eqb comp "" || String.eqb comp "." then new_comps
  else if negb (String.eqb comp "..")
          || (Nat.eqb slashes 0 && match new_comps with [] => true | _ => false end)
          || match new_comps with h :: _ => String.eqb h ".." | [] => false end
       then comp :: new_comps
       else match new_comps with _ :: t => t | [] => [] end.

(** [os.path.normpath] *)
Definition normpath (path : string) : string :=
  if negb (truthy path) then "."
  else
    let slashes := initial_slashes path in
    let comps := rev (fold_left (norm_step slashes) (split_slash path) []) in
    let joined := repeat_str "/" slashes ++ String.concat "/" comps in
    if truthy joined then joined else ".".

(** [os.path.abspath], given the current working directory. *)
Definition abspath (cwd path : string) : string :=
  normpath (if isabs path then path else join cwd path).

End OsPath.

(** ** Exceptions, scores, cells and tables *)

Inductive ExcClass :=
| FileNotFoundError | ValueError | TypeError | AttributeError
| KeyError | IndexError | OSError | EOFError.

(** An exception: its class and [str(e)]. *)
Record PyExc := mkExc { exc_class : ExcClass; exc_str : string }.

(** Scores are IEEE binary64 numbers, in canonical form. *)
Definition score := spec_float.
Definition score_zero : score := S754_zero false.                          (* 0.0 *)
Definition score_half : score := S754_finite false 4503599627370496 (-53). (* 0.5 *)
Definition score_one : score := S754_finite false 4503599627370496 (-52).  (* 1.0 *)

(** [a > b] on floats; false as soon as one side is NaN. *)
Definition float_gt (a b : score) : bool := SFltb b a.

(** A raw cell value as the sheet parser delivers it: missing (NaN, None),
    text, an integer or a boolean.  Float cells other than NaN, which a
    numeric column with blanks gives, are outside the model. *)
Inductive Cell :=
| CNull
| CStr (s : string)
| CInt (z : Z)
| CBool (b : bool).

(** [pd.isnull] on a scalar. *)
Definition isnull (c : Cell) : bool :=
  match c with CNull => true | _ => false end.

(** [str(c)] *)
Definition str (c : Cell) : string :=
  match c with
  | CNull => "nan"
  | CStr s => s
  | CInt z => PyStr.str_of_int z
  | CBool true => "True"
  | CBool false => "False"
  end.

(** A row of a sheet: column name to cell, in column order. *)
Definition Series := list (string * Cell).

(** An index label of a table. *)
Inductive Label :=
| LInt (z : Z)
| LStr (s : string).

(** A table as [iterrows] walks it: label and row, in order.  In a table
    read from a sheet every row has the same columns. *)
Definition DataFrame := list (Label * Series).

(** The sheets of a workbook in workbook order: name and rows. *)
Definition Workbook := list (string * list Series).

(** The dictionary of four lists that [process_sheet] fills, which is also
    the shape of the report table. *)
Record Results := mkResults {
  SheetName : list string;
  Row : list Z;
  CosineSimilarity : list score;
  Result : list string
}.

Definition empty_results : Results := mkResults [] [] [] [].

(** ** The world the program acts on *)

Inductive Level := INFO | ERROR.

Record Written := mkWritten {
  w_path : string;
  w_sheet : string;
  w_table : Results
}.

Record World := mkWorld {
  log_file : list (Level * string);          (* text_similarity.log, oldest first *)
  written : list Written;                    (* workbooks saved, oldest first *)
  vectorizer_calls : list (string * string); (* pairs handed to fit_transform *)
  stdout : list string                       (* texts printed or prompted, in order *)
}.

Definition empty_world : World := mkWorld [] [] [] [].

Inductive FileKind := NoEntry | Directory | RegularFile | Special.

(** What the program reads from its surroundings. *)
Record OS := mkOS {
  getenv_EXCEL_FILE_PATH : option string;
  stat : string -> FileKind;
  getcwd : string;
  stdin_line : PyExc + string;              (* the line [input] reads, or EOFError *)
  ExcelFile : string -> PyExc + Workbook;   (* opening and parsing a workbook *)
  ExcelWriter : string -> option PyExc;     (* why a path cannot be written, if so *)
  FileHandler : string -> option PyExc      (* why a log file cannot be opened, if so *)
}.

Definition os_path_exists (os : OS) (p : string) : bool :=
  match stat os p with NoEntry => false | _ => true end.

Definition os_path_isfile (os : OS) (p : string) : bool :=
  match stat os p with RegularFile => true | _ => false end.

(** ** The monad of methods: world passing with exceptions *)

Definition M (A : Type) : Type := World -> (PyExc + A) * World.

Definition ret {A} (a : A) : M A := fun w => (inr a, w).

Definition raise {A} (e : PyExc) : M A := fun w => (inl e, w).

Definition bind {A B} (m : M A) (k : A -> M B) : M B :=
  fun w => match m w with
           | (inr a, w') => k a w'
           | (inl e, w') => (inl e, w')
           end.

(** [try: m except Exception as e: h e] *)
Definition try_except {A} (m : M A) (h : PyExc -> M A) : M A :=
  fun w => match m w with
           | (inl e, w') => h e w'
           | r => r
           end.

Definition lift {A} (r : PyExc + A) : M A := fun w => (r, w).

Declare Scope py_scope.
Delimit Scope py_scope with py.
Notation "x <- c ;; k" := (bind c (fun x => k))
  (at level 61, c at next level, right associativity) : py_scope.
Notation "c ;; k" := (bind c (fun _ => k))
  (at level 61, right associativity) : py_scope.
Local Open Scope py_scope.

(** A [for] loop whose body updates an accumulator and may raise. *)
Fixpoint for_each {A S} (body : S -> A -> M S) (xs : list A) (acc : S) : M S :=
  match xs with
  | [] => ret acc
  | x :: rest => acc' <- body acc x ;; for_each body rest acc'
  end.

Definition emit (lv : Level) (msg : string) : M unit :=
  fun w => (inr tt, mkWorld (log_file w ++ [(lv, msg)])%list (written w)
                            (vectorizer_calls w) (stdout w)).

Definition print (msg : string) : M unit :=
  fun w => (inr tt, mkWorld (log_file w) (written w) (vectorizer_calls w)
                            (stdout w ++ [msg])%list).

(** ** class TextSimilarityAnalyzer *)

Inductive Logger := FileLogger.
Inductive Vectorizer := TfidfVectorizer.

(** The instance attributes; [None] while an attribute is not yet set. *)
Record Analyzer := mkAnalyzer {
  excel_file_path : option string;
  vectorizer : option Vectorizer;
  logger : option Logger
}.

Definition no_attribute (name : string) : PyExc :=
  mkExc AttributeError
        ("'TextSimilarityAnalyzer' object has no attribute '" ++ name ++ "'").

Definition getattr {A} (field : option A) (name : string) : M A :=
  match field with
  | Some a => ret a
  | None => raise (no_attribute name)
  end.

(** [self.logger.error(msg)] and [self.logger.info(msg)] *)
Definition logger_error (self : Analyzer) (msg : string) : M unit :=
  _ <- getattr (logger self) "logger" ;; emit ERROR msg.

Definition logger_info (self : Analyzer) (msg : string) : M unit :=
  _ <- getattr (logger self) "logger" ;; emit INFO msg.

(** The handler every method ends with: log, then re-raise. *)
Definition log_and_reraise {A} (self : Analyzer) (what : string) (e : PyExc) : M A :=
  logger_error self (what ++ exc_str e) ;; raise e.

Definition column1 : string := "Active Voice".
Definition column2 : string := "Passive Voice".

Definition dquote : string := String (ascii_of_nat 34) EmptyString.

(** [repr] of a column name, which is what [str] of a KeyError shows. *)
Definition repr_str (s : string) : string := "'" ++ s ++ "'".

Fixpoint series_get (row : Series) (column : string) : option Cell :=
  match row with
  | [] => None
  | (name, v) :: rest => if String.eqb name column then Some v else series_get rest column
  end.

(** [row[column]] *)
Definition getitem (row : Series) (column : string) : M Cell :=
  match series_get row column with
  | Some v => ret v
  | None => raise (mkExc KeyError (repr_str column))
  end.

(** [index + 1] *)
Definition index_plus_one (index : Label) : M Z :=
  match index with
  | LInt z => ret (z + 1)
  | LStr _ =>
      raise (mkExc TypeError
        ("can only concatenate str (not " ++ dquote ++ "int" ++ dquote ++ ") to str"))
  end.

(** The table [xls.parse(sheet_name)] builds from a sheet: its rows under
    the default index 0, 1, 2, ... *)
Fixpoint range_index (start : Z) (rows : list Series) : DataFrame :=
  match rows with
  | [] => []
  | r :: rest => (LInt start, r) :: range_index (start + 1) rest
  end.

Definition parse (rows : list Series) : DataFrame := range_index 0 rows.

Definition same_lengths (r : Results) : bool :=
  let n := List.length (SheetName r) in
  Nat.eqb (List.length (Row r)) n
  && Nat.eqb (List.length (CosineSimilarity r)) n
  && Nat.eqb (List.length (Result r)) n.

(** [pd.DataFrame(dict of lists)] *)
Definition pd_DataFrame (columns : Results) : M Results :=
  if same_lengths columns then ret columns
  else raise (mkExc ValueError "All arrays must be of the same length").

Section Program.

Variable os : OS.

(** [TfidfVectorizer.fit_transform] on the two texts followed by
    [linear_kernel] of the two rows: the library's part of the work. *)
Variable tfidf_kernel : string -> string -> PyExc + score.

Definition fit_transform_kernel (self : Analyzer) (a1 a2 : string) : M score :=
  _ <- getattr (vectorizer self) "vectorizer" ;;
  fun w => (tfidf_kernel a1 a2,
            mkWorld (log_file w) (written w) (vectorizer_calls w ++ [(a1, a2)])%list
                    (stdout w)).

(** [setup_logger]: the file handler opens the log file when it is made,
    and that can fail.  One handler per analyzer is modelled: the handlers
    that further constructions add to the module's logger are not. *)
Definition setup_logger : M Logger :=
  match FileHandler os "text_similarity.log" with
  | Some e => raise e
  | None => ret FileLogger
  end.

(** [with pd.ExcelWriter(path, engine='xlsxwriter') as writer:
       df.to_excel(writer, sheet_name=sheet, index=False)] *)
Definition to_excel (path sheet : string) (df : Results) : M unit :=
  match ExcelWriter os path with
  | Some e => raise e
  | None =>
      fun w => (inr tt, mkWorld (log_file w)
                                (written w ++ [mkWritten path sheet df])%list
                                (vectorizer_calls w) (stdout w))
  end.

Definition validate_excel_path (self : Analyzer) (path : option string) : M string :=
  try_except
    (match path with
     | None =>
         raise (mkExc TypeError
           "stat: path should be string, bytes, os.PathLike or integer, not NoneType")
     | Some p =>
         if negb (os_path_exists os p) then
           raise (mkExc FileNotFoundError ("File not found: " ++ p))
         else if negb (os_path_isfile os p) then
           raise (mkExc ValueError ("Not a file: " ++ p))
         else
           let extension := snd (OsPath.splitext p) in
           if negb (existsb (String.eqb (PyStr.lower extension)) [".xlsx"; ".xls"]) then
             raise (mkExc ValueError ("Not a valid Excel file: " ++ p))
           else ret (OsPath.abspath (getcwd os) p)
     end)
    (log_and_reraise self "Error validating Excel path: ").

(** [__init__]: the attributes are set in this order. *)
Definition init : M Analyzer :=
  let self0 := mkAnalyzer None None None in
  p <- validate_excel_path self0 (getenv_EXCEL_FILE_PATH os) ;;
  let self1 := mkAnalyzer (Some p) (Some TfidfVectorizer) None in
  lg <- setup_logger ;;
  ret (mkAnalyzer (excel_file_path self1) (vectorizer self1) (Some lg)).

(** The text a cell is compared as. *)
Definition normalize (answer : Cell) : string :=
  if negb (isnull answer) then PyStr.lower (str answer) else "".

Definition calculate_similarity (self : Analyzer) (answer1 answer2 : Cell) : M score :=
  try_except
    (let answer1 := normalize answer1 in
     let answer2 := normalize answer2 in
     if PyStr.truthy answer1 && PyStr.truthy answer2 then
       cosine_sim <- fit_transform_kernel self answer1 answer2 ;;
       ret cosine_sim
     else ret score_zero)
    (log_and_reraise self "Error calculating similarity: ").

Definition verdict (cosine_sim : score) : string :=
  if float_gt cosine_sim score_half then "Passed" else "Failed".

(** The body of the loop of [process_sheet]. *)
Definition process_row (self : Analyzer) (sheet_name : string)
    (results : Results) (item : Label * Series) : M Results :=
  let (index, row) := item in
  v1 <- getitem row column1 ;;
  v2 <- getitem row column2 ;;
  cosine_sim <- calculate_similarity self v1 v2 ;;
  let result := verdict cosine_sim in
  row_number <- index_plus_one index ;;
  ret (mkResults (SheetName results ++ [sheet_name])%list
                 (Row results ++ [row_number])%list
                 (CosineSimilarity results ++ [cosine_sim])%list
                 (Result results ++ [result])%list).

Definition process_sheet (self : Analyzer) (sheet_name : string)
    (dataframe : DataFrame) : M Results :=
  try_except
    (for_each (process_row self sheet_name) dataframe empty_results)
    (log_and_reraise self ("Error processing sheet '" ++ sheet_name ++ "': ")).

(** The body of the loop over the sheets in [analyze_excel_file]. *)
Definition collect_sheet (self : Analyzer) (all_results : list Results)
    (sheet : string * list Series) : M (list Results) :=
  let (sheet_name, rows) := sheet in
  let df := parse rows in
  sheet_results <- process_sheet self sheet_name df ;;
  ret (all_results ++ [sheet_results])%list.

Definition process_all (self : Analyzer) (xls : Workbook) : M (list Results) :=
  for_each (collect_sheet self) xls [].

(** [[item for sublist in [result[key] for result in all_results] for item in sublist]] *)
Definition flatten {A} (key : Results -> list A) (all_results : list Results) : list A :=
  List.concat (List.map key all_results).

Definition analyze_excel_file (self : Analyzer) : M unit :=
  try_except
    (path <- getattr (excel_file_path self) "excel_file_path" ;;
     xls <- lift (ExcelFile os path) ;;
     all_results <- process_all self xls ;;
     _ <- match all_results with
          | [] => raise (mkExc IndexError "list index out of range")
          | first :: _ => ret first
          end ;;
     results_df <- pd_DataFrame
       (mkResults (flatten SheetName all_results) (flatten Row all_results)
                  (flatten CosineSimilarity all_results) (flatten Result all_results)) ;;
     let output_excel_file := PyStr.replace ".xlsx" "-results.xlsx" path in
     to_excel output_excel_file "Results" results_df ;;
     logger_info self ("Results saved to: " ++ output_excel_file))
    (log_and_reraise self "An error occurred during analysis: ").

(** [input(prompt)]: the prompt goes to the standard output, then a line is
    read. *)
Definition input (prompt : string) : M string :=
  fun w => (stdin_line os,
            mkWorld (log_file w) (written w) (vectorizer_calls w)
                    (stdout w ++ [prompt])%list).

(** The script body.  The line that [input] reads is bound and never used:
    [__init__] reads the environment again.  Only exceptions below
    [Exception] are modelled, which are the ones the handler catches. *)
Definition main : M unit :=
  try_except
    (input_excel_file <-
       match getenv_EXCEL_FILE_PATH os with
       | Some p => ret p
       | None => input "Enter the path to the Excel file: "
       end ;;
     analyzer <- init ;;
     analyze_excel_file analyzer)
    (fun e => print ("An error occurred: " ++ exc_str e)).

End Program.

(** ** Instances used to run the program *)

(** An analyzer after a successful [__init__]. *)
Definition ready (path : string) : Analyzer :=
  mkAnalyzer (Some path) (Some TfidfVectorizer) (Some FileLogger).

(** A row that has both designated columns. *)
Definition voices (active passive : Cell) : Series :=
  [(column1, active); (column2, passive)].

(** A stand-in for the library's kernel on the few texts used below. *)
Definition sample_kernel (a1 a2 : string) : PyExc + score :=
  if String.eqb a1 a2 then inr score_one else inr score_zero.

Definition sample_workbook : Workbook :=
  [("Sheet1", [voices (CStr "The cat sat") (CStr "the cat sat");
               voices CNull (CStr "Bake a cake")])].

(** A workbook whose second sheet has no "Active Voice" column. *)
Definition broken_workbook : Workbook :=
  [("Sheet1", [voices (CStr "The cat sat") (CStr "the cat sat")]);
   ("Sheet2", [[(column2, CStr "Bake a cake")]])].

Definition sample_stat (p : string) : FileKind :=
  if String.eqb p "/data/book.xls" then RegularFile
  else if String.eqb p "/data/book.xlsx" then RegularFile
  else if String.eqb p "/data/notes.txt" then RegularFile
  else if String.eqb p "/data" then Directory
  else NoEntry.

Definition sample_os (env : option string) (wb : Workbook) : OS :=
  mkOS env sample_stat "/home/user" (inr "") (fun _ => inr wb) (fun _ => None)
       (fun _ => None).

(** ** Properties of computations *)

(** Does [old] occur in [s]? *)
Fixpoint occurs (old s : string) : bool :=
  match s with
  | EmptyString => String.prefix old s
  | String _ s' => String.prefix old s || occurs old s'
  end.

(** The outcome (value or exception) does not depend on the world. *)
Definition outcome_pure {A} (m : M A) : Prop :=
  forall w w', fst (m w) = fst (m w').

(** The computation saves no workbook. *)
Definition keeps_written {A} (m : M A) : Prop :=
  forall w, written (snd (m w)) = written w.

(** The computation hands at least one pair of texts to the vectorizer. *)
Definition vectorizer_invoked {A} (m : M A) (w : World) : Prop :=
  vectorizer_calls (snd (m w)) <> vectorizer_calls w.

(** A cell that is missing or whose text is empty. *)
Definition empty_cell (c : Cell) : Prop :=
  isnull c = true \/ normalize c = "".

(** What one row contributes: its row number and score. *)
Definition row_outcome (tfidf_kernel : string -> string -> PyExc + score)
    (self : Analyzer) (item : Label * Series) (out : Z * score) : Prop :=
  exists v1 v2 w0,
    series_get (snd item) column1 = Some v1 /\
    series_get (snd item) column2 = Some v2 /\
    fst (calculate_similarity tfidf_kernel self v1 v2 w0) = inr (snd out) /\
    fst item = LInt (fst out - 1).

(** The outcome of processing one sheet of a workbook. *)
Definition sheet_outcome (tfidf_kernel : string -> string -> PyExc + score)
    (self : Analyzer) (sheet : string * list Series) : PyExc + Results :=
  fst (process_sheet tfidf_kernel self (fst sheet) (parse (snd sheet)) empty_world).

(** 1.0000000000000002, the float next above 1.0. *)
Definition score_above_one : score := S754_finite false 4503599627370497 (-52).

(** The library's kernel on the two pairs of texts it is quoted on below: a
    text of stop words only has no vocabulary, and the three shared words of
    the two sentences give a product of norms that rounds above 1.  On
    other pairs it answers as the stand-in does. *)
Definition observed_kernel (a1 a2 : string) : PyExc + score :=
  if String.eqb a1 "the" && String.eqb a2 "the" then
    inl (mkExc ValueError
           "empty vocabulary; perhaps the documents only contain stop words")
  else if String.eqb a1 "the cat sat on the mat"
          && String.eqb a2 "the mat was sat on by the cat" then
    inr score_above_one
  else sample_kernel a1 a2.



(** A text of ASCII characters only; on such a text [PyStr.lower] is
    [str.lower]. *)
Fixpoint ascii_only (s : string) : bool :=
  match s with
  | EmptyString => true
  | String c s' => (nat_of_ascii c <? 128)%nat && ascii_only s'
  end.

(** Can the loop of [process_sheet] get past this row?  Both designated
    columns are there, the label is an integer, and the kernel, if it is
    called, returns a score. *)
Definition row_scorable (tfidf_kernel : string -> string -> PyExc + score)
    (item : Label * Series) : bool :=
  match series_get (snd item) column1, series_get (snd item) column2, fst item with
  | Some v1, Some v2, LInt _ =>
      if PyStr.truthy (normalize v1) && PyStr.truthy (normalize v2)
      then match tfidf_kernel (normalize v1) (normalize v2) with
           | inr _ => true
           | inl _ => false
           end
      else true
  | _, _, _ => false
  end.

(** The pair of texts a row hands to the vectorizer, if it hands any. *)
Definition row_texts (item : Label * Series) : list (string * string) :=
  match series_get (snd item) column1, series_get (snd item) column2 with
  | Some v1, Some v2 =>
      if PyStr.truthy (normalize v1) && PyStr.truthy (normalize v2)
      then [(normalize v1, normalize v2)]
      else []
  | _, _ => []
  end.

(** The numbers 1, 2, ..., n. *)
Definition row_numbers (n : nat) : list Z :=
  map (fun k => Z.of_nat k + 1) (seq 0 n).

(** The world after one more line in the log. *)
Definition logged (w : World) (lv : Level) (msg : string) : World :=
  mkWorld (log_file w ++ [(lv, msg)]) (written w) (vectorizer_calls w) (stdout w).

(** The world after more pairs of texts went to the vectorizer. *)
Definition vectorized (w : World) (texts : list (string * string)) : World :=
  mkWorld (log_file w) (written w) (vectorizer_calls w ++ texts) (stdout w).

(** The extension test of [validate_excel_path]. *)
Definition excel_extension (p : string) : bool :=
  existsb (String.eqb (PyStr.lower (snd (OsPath.splitext p)))) [".xlsx"; ".xls"].

(** The pairs of texts a sheet hands to the vectorizer, in row order. *)
Definition sheet_texts (sheet : string * list Series) : list (string * string) :=
  flat_map row_texts (parse (snd sheet)).

Definition sheet_scorable (tfidf_kernel : string -> string -> PyExc + score)
    (sheet : string * list Series) : bool :=
  forallb (row_scorable tfidf_kernel) (parse (snd sheet)).

(** The shape of the results of one sheet: its name on every row, the rows
    numbered from 1, a verdict for every score. *)
Definition sheet_report (sheet : string * list Series) (res : Results) : Prop :=
  SheetName res = repeat (fst sheet) (List.length (snd sheet)) /\
  Row res = row_numbers (List.length (snd sheet)) /\
  Result res = map verdict (CosineSimilarity res) /\
  List.length (CosineSimilarity res) = List.length (snd sheet).

(** The path the report is saved at. *)
Definition report_path (path : string) : string :=
  PyStr.replace ".xlsx" "-results.xlsx" path.

(** ** Effects of the building blocks *)

Create HintDb effects.

Section Effects.

Context {A B : Type}.

Lemma pure_ret (a : A) : outcome_pure (ret a).
Proof. intros w w'. reflexivity. Qed.

Lemma pure_raise (e : PyExc) : outcome_pure (@raise A e).
Proof. intros w w'. reflexivity. Qed.

Lemma pure_lift (r : PyExc + A) : outcome_pure (lift r).
Proof. intros w w'. reflexivity. Qed.

Lemma pure_bind (m : M A) (k : A -> M B) :
  outcome_pure m -> (forall a, outcome_pure (k a)) -> outcome_pure (bind m k).
Proof.
  intros Hm Hk w w'. unfold bind. specialize (Hm w w').
  destruct (m w) as [[e | a] w1], (m w') as [[e' | a'] w1']; simpl in *;
    try congruence.
  injection Hm as ->. apply Hk.
Qed.

Lemma pure_try_except (m : M A) (h : PyExc -> M A) :
  outcome_pure m -> (forall e, outcome_pure (h e)) -> outcome_pure (try_except m h).
Proof.
  intros Hm Hh w w'. unfold try_except. specialize (Hm w w').
  destruct (m w) as [[e | a] w1], (m w') as [[e' | a'] w1']; simpl in *;
    try congruence.
  injection Hm as ->. apply Hh.
Qed.

Lemma keeps_ret (a : A) : keeps_written (ret a).
Proof. intros w. reflexivity. Qed.

Lemma keeps_raise (e : PyExc) : keeps_written (@raise A e).
Proof. intros w. reflexivity. Qed.

Lemma keeps_lift (r : PyExc + A) : keeps_written (lift r).
Proof. intros w. reflexivity. Qed.

Lemma keeps_bind (m : M A) (k : A -> M B) :
  keeps_written m -> (forall a, keeps_written (k a)) -> keeps_written (bind m k).
Proof.
  intros Hm Hk w. unfold bind. specialize (Hm w).
  destruct (m w) as [[e | a] w1]; simpl in *; [assumption |].
  rewrite Hk. assumption.
Qed.

Lemma keeps_try_except (m : M A) (h : PyExc -> M A) :
  keeps_written m -> (forall e, keeps_written (h e)) -> keeps_written (try_except m h).
Proof.
  intros Hm Hh w. unfold try_except. specialize (Hm w).
  destruct (m w) as [[e | a] w1]; simpl in *; [| assumption].
  rewrite Hh. assumption.
Qed.

End Effects.

#[local] Hint Resolve pure_ret pure_raise pure_lift pure_bind pure_try_except
  keeps_ret keeps_raise keeps_lift keeps_bind keeps_try_except : effects.

Lemma pure_emit lv msg : outcome_pure (emit lv msg).
Proof. intros w w'. reflexivity. Qed.

Lemma keeps_emit lv msg : keeps_written (emit lv msg).
Proof. intros w. reflexivity. Qed.

Lemma pure_getattr {A} (field : option A) name : outcome_pure (getattr field name).
Proof. destruct field; simpl; auto with effects. Qed.

Lemma keeps_getattr {A} (field : option A) name : keeps_written (getattr field name).
Proof. destruct field; simpl; auto with effects. Qed.

#[local] Hint Resolve pure_emit keeps_emit pure_getattr keeps_getattr : effects.

Lemma pure_log_and_reraise {A} self what e : outcome_pure (@log_and_reraise A self what e).
Proof. unfold log_and_reraise, logger_error. auto 10 with effects. Qed.

Lemma keeps_log_and_reraise {A} self what e : keeps_written (@log_and_reraise A self what e).
Proof. unfold log_and_reraise, logger_error. auto 10 with effects. Qed.

Lemma pure_getitem row column : outcome_pure (getitem row column).
Proof. unfold getitem. destruct (series_get row column); auto with effects. Qed.

Lemma keeps_getitem row column : keeps_written (getitem row column).
Proof. unfold getitem. destruct (series_get row column); auto with effects. Qed.

Lemma pure_index_plus_one index : outcome_pure (index_plus_one index).
Proof. destruct index; simpl; auto with effects. Qed.

Lemma keeps_index_plus_one index : keeps_written (index_plus_one index).
Proof. destruct index; simpl; auto with effects. Qed.

#[local] Hint Resolve pure_log_and_reraise keeps_log_and_reraise pure_getitem
  keeps_getitem pure_index_plus_one keeps_index_plus_one : effects.

Lemma pure_for_each {A S} (body : S -> A -> M S) xs :
  (forall acc x, outcome_pure (body acc x)) ->
  forall acc, outcome_pure (for_each body xs acc).
Proof.
  intros Hbody. induction xs as [| x rest IH]; intros acc; simpl;
    auto with effects.
Qed.

Lemma keeps_for_each {A S} (body : S -> A -> M S) xs :
  (forall acc x, keeps_written (body acc x)) ->
  forall acc, keeps_written (for_each body xs acc).
Proof.
  intros Hbody. induction xs as [| x rest IH]; intros acc; simpl;
    auto with effects.
Qed.

(** An exception handler that re-raises never turns a failure into a value. *)
Lemma try_reraise_inr {A} (m : M A) self what w a w' :
  try_except m (log_and_reraise self what) w = (inr a, w') -> m w = (inr a, w').
Proof.
  unfold try_except. destruct (m w) as [[e | a0] w1]; [| tauto].
  unfold log_and_reraise, logger_error, bind, getattr.
  destruct (logger self); simpl; discriminate.
Qed.

(** With a logger in place the handler passes the exception on, having
    written one ERROR line. *)
Lemma log_and_reraise_ready {A} path what e w :
  @log_and_reraise A (ready path) what e w =
  (inl e, mkWorld (log_file w ++ [(ERROR, (what ++ exc_str e)%string)])%list (written w)
                  (vectorizer_calls w) (stdout w)).
Proof. reflexivity. Qed.

(** ** The scorer and the sheet processor *)


Lemma isnull_normalize (c : Cell) : isnull c = true -> normalize c = "".
Proof. unfold normalize. intros ->. reflexivity. Qed.

Lemma empty_cell_normalize (c : Cell) : empty_cell c -> normalize c = "".
Proof. intros [H | H]; [apply isnull_normalize |]; assumption. Qed.

Lemma verdict_passed (s : score) : verdict s = "Passed" <-> SFltb score_half s = true.
Proof.
  unfold verdict, float_gt. destruct (SFltb score_half s); split;
    (reflexivity || discriminate).
Qed.

Lemma verdict_failed (s : score) : verdict s = "Failed" <-> SFltb score_half s = false.
Proof.
  unfold verdict, float_gt. destruct (SFltb score_half s); split;
    (reflexivity || discriminate).
Qed.

(** The threshold on either side: 0.5 itself fails, the next float passes,
    and so does 1.0; a NaN fails. *)
Example verdict_at_half : verdict score_half = "Failed".
Proof. reflexivity. Qed.

Example verdict_above_half :
  verdict (S754_finite false 4503599627370497 (-53)) = "Passed".
Proof. reflexivity. Qed.

Example verdict_one : verdict score_one = "Passed".
Proof. reflexivity. Qed.

Example verdict_nan : verdict S754_nan = "Failed".
Proof. reflexivity. Qed.

Lemma Forall2_nth_left {A B} (R : A -> B -> Prop) l l' :
  Forall2 R l l' ->
  forall k a, nth_error l k = Some a -> exists b, nth_error l' k = Some b /\ R a b.
Proof.
  induction 1 as [| x y l l' Hxy _ IH]; intros k a Hk.
  - destruct k; discriminate.
  - destruct k as [| k]; simpl in *.
    + injection Hk as <-. eauto.
    + eauto.
Qed.

Lemma nth_range_index rows : forall start k,
  nth_error (range_index start rows) k =
  option_map (fun r => (LInt (start + Z.of_nat k), r)) (nth_error rows k).
Proof.
  induction rows as [| r rest IH]; intros start k.
  - destruct k; reflexivity.
  - destruct k as [| k]; simpl range_index.
    + simpl. rewrite Z.add_0_r. reflexivity.
    + change (nth_error (range_index (start + 1) rest) k =
              option_map (fun r0 => (LInt (start + Z.of_nat (S k)), r0))
                         (nth_error rest k)).
      rewrite IH. replace (start + 1 + Z.of_nat k) with (start + Z.of_nat (S k)) by lia.
      reflexivity.
Qed.

Section Scorer.

Variable tfidf_kernel : string -> string -> PyExc + score.

Lemma pure_fit_transform_kernel self a1 a2 :
  outcome_pure (fit_transform_kernel tfidf_kernel self a1 a2).
Proof.
  unfold fit_transform_kernel. apply pure_bind; auto with effects.
  intros _ w w'. reflexivity.
Qed.

Lemma keeps_fit_transform_kernel self a1 a2 :
  keeps_written (fit_transform_kernel tfidf_kernel self a1 a2).
Proof.
  unfold fit_transform_kernel. apply keeps_bind; auto with effects.
  intros _ w. reflexivity.
Qed.

#[local] Hint Resolve pure_fit_transform_kernel keeps_fit_transform_kernel : effects.

Lemma pure_calculate_similarity self a1 a2 :
  outcome_pure (calculate_similarity tfidf_kernel self a1 a2).
Proof.
  unfold calculate_similarity.
  destruct (PyStr.truthy (normalize a1) && PyStr.truthy (normalize a2));
    auto 10 with effects.
Qed.

Lemma keeps_calculate_similarity self a1 a2 :
  keeps_written (calculate_similarity tfidf_kernel self a1 a2).
Proof.
  unfold calculate_similarity.
  destruct (PyStr.truthy (normalize a1) && PyStr.truthy (normalize a2));
    auto 10 with effects.
Qed.

#[local] Hint Resolve pure_calculate_similarity keeps_calculate_similarity : effects.

Lemma pure_process_row self name acc item : outcome_pure (process_row tfidf_kernel self name acc item).
Proof. destruct item as [index row]. unfold process_row. auto 12 with effects. Qed.

Lemma keeps_process_row self name acc item : keeps_written (process_row tfidf_kernel self name acc item).
Proof. destruct item as [index row]. unfold process_row. auto 12 with effects. Qed.

#[local] Hint Resolve pure_process_row keeps_process_row : effects.

Lemma pure_process_sheet self name df : outcome_pure (process_sheet tfidf_kernel self name df).
Proof.
  unfold process_sheet. apply pure_try_except; auto with effects.
  apply pure_for_each. auto with effects.
Qed.

Lemma keeps_process_sheet self name df : keeps_written (process_sheet tfidf_kernel self name df).
Proof.
  unfold process_sheet. apply keeps_try_except; auto with effects.
  apply keeps_for_each. auto with effects.
Qed.

#[local] Hint Resolve pure_process_sheet keeps_process_sheet : effects.

Lemma keeps_process_all self xls : keeps_written (process_all tfidf_kernel self xls).
Proof.
  unfold process_all. apply keeps_for_each.
  intros acc [name rows]. unfold collect_sheet. auto with effects.
Qed.

(** Whether a sheet can be processed does not depend on the world it is
    processed in. *)
Lemma sheet_outcome_any_world self name rows w :
  fst (process_sheet tfidf_kernel self name (parse rows) w) =
  sheet_outcome tfidf_kernel self (name, rows).
Proof. apply pure_process_sheet. Qed.

(** The first sheet whose processing raises stops the loop over the sheets
    with that exception. *)
Lemma process_sheets_raise path xls : forall acc w,
  (exists sheet e, In sheet xls /\
     sheet_outcome tfidf_kernel (ready path) sheet = inl e) ->
  exists sheet e, In sheet xls /\
     sheet_outcome tfidf_kernel (ready path) sheet = inl e /\
     fst (for_each (collect_sheet tfidf_kernel (ready path)) xls acc w) = inl e.
Proof.
  induction xls as [| [name rows] rest IH]; intros acc w (sheet & e & Hin & Hout).
  - destruct Hin.
  - change (for_each (collect_sheet tfidf_kernel (ready path)) ((name, rows) :: rest) acc w)
      with (bind (collect_sheet tfidf_kernel (ready path) acc (name, rows))
                 (for_each (collect_sheet tfidf_kernel (ready path)) rest) w).
    unfold bind at 1. unfold collect_sheet at 1. unfold bind at 1.
    pose proof (pure_process_sheet (ready path) name (parse rows) w empty_world) as Hpure.
    destruct (process_sheet tfidf_kernel (ready path) name (parse rows) w)
      as [[e1 | res1] w1]; simpl in Hpure.
    + exists (name, rows), e1. simpl. auto.
    + destruct Hin as [<- | Hin].
      * unfold sheet_outcome in Hout. simpl in Hout. congruence.
      * destruct (IH (acc ++ [res1])%list w1) as (sheet' & e' & Hin' & Hout' & Hrun).
        { eauto. }
        exists sheet', e'. simpl. auto.
Qed.

(** The short circuit of the scorer: an empty text on either side gives
    exactly 0.0 and leaves the world as it was. *)
Lemma calculate_similarity_short_circuit self a1 a2 w :
  normalize a1 = "" \/ normalize a2 = "" ->
  calculate_similarity tfidf_kernel self a1 a2 w = (inr score_zero, w).
Proof.
  intros H. unfold calculate_similarity, try_except.
  destruct H as [-> | ->]; simpl; [| rewrite andb_false_r]; reflexivity.
Qed.

(** The value of the scorer is 0.0 or the value of the library's kernel on
    the two normalized texts. *)
Lemma calculate_similarity_value self a1 a2 w s :
  fst (calculate_similarity tfidf_kernel self a1 a2 w) = inr s ->
  s = score_zero \/ tfidf_kernel (normalize a1) (normalize a2) = inr s.
Proof.
  unfold calculate_similarity, try_except.
  destruct (PyStr.truthy (normalize a1) && PyStr.truthy (normalize a2)).
  - unfold fit_transform_kernel, bind, getattr.
    destruct (vectorizer self); simpl.
    + destruct (tfidf_kernel (normalize a1) (normalize a2)) as [e | s0]; simpl.
      * unfold log_and_reraise, logger_error, bind, getattr.
        destruct (logger self); simpl; discriminate.
      * intros [= ->]. right. reflexivity.
    + unfold log_and_reraise, logger_error, bind, getattr.
      destruct (logger self); simpl; discriminate.
  - simpl. intros [= <-]. left. reflexivity.
Qed.

Lemma process_row_inr self name acc index row w acc' w1 :
  process_row tfidf_kernel self name acc (index, row) w = (inr acc', w1) ->
  exists v1 v2 s z,
    series_get row column1 = Some v1 /\
    series_get row column2 = Some v2 /\
    calculate_similarity tfidf_kernel self v1 v2 w = (inr s, w1) /\
    index = LInt z /\
    acc' = mkResults (SheetName acc ++ [name]) (Row acc ++ [z + 1])
                     (CosineSimilarity acc ++ [s]) (Result acc ++ [verdict s]).
Proof.
  unfold process_row, bind, getitem.
  destruct (series_get row column1) as [v1 |]; simpl; [| discriminate].
  destruct (series_get row column2) as [v2 |]; simpl; [| discriminate].
  destruct (calculate_similarity tfidf_kernel self v1 v2 w) as [[e | s] w2] eqn:Hs;
    [discriminate |].
  destruct index as [z | l]; simpl; [| discriminate].
  intros [= <- <-]. exists v1, v2, s, z. auto.
Qed.

(** The loop invariant of [process_sheet]: every row appends its sheet
    name, row number, score and verdict, in step. *)
Lemma process_rows_shape self name df : forall acc w res w',
  for_each (process_row tfidf_kernel self name) df acc w = (inr res, w') ->
  exists outs,
    Forall2 (row_outcome tfidf_kernel self) df outs /\
    res = mkResults (SheetName acc ++ map (fun _ => name) df)
                    (Row acc ++ map fst outs)
                    (CosineSimilarity acc ++ map snd outs)
                    (Result acc ++ map (fun o => verdict (snd o)) outs).
Proof.
  induction df as [| [index row] rest IH]; intros acc w res w' Hrun.
  - cbv [for_each ret] in Hrun. injection Hrun as <- <-.
    exists []. split; [constructor |].
    simpl. rewrite !app_nil_r. destruct acc; reflexivity.
  - change (bind (process_row tfidf_kernel self name acc (index, row))
                 (for_each (process_row tfidf_kernel self name) rest) w = (inr res, w'))
      in Hrun.
    unfold bind in Hrun.
    destruct (process_row tfidf_kernel self name acc (index, row) w)
      as [[e | acc'] w1] eqn:Hrow; cbv beta iota in Hrun; [discriminate |].
    apply process_row_inr in Hrow.
    destruct Hrow as (v1 & v2 & s & z & H1 & H2 & Hs & -> & ->).
    apply IH in Hrun. destruct Hrun as (outs & Hall & ->).
    exists ((z + 1, s) :: outs). split.
    + constructor; [| assumption].
      exists v1, v2, w. simpl. rewrite Hs, Z.add_simpl_r. auto.
    + simpl. rewrite <- !app_assoc. reflexivity.
Qed.

Lemma process_sheet_columns self name df w res w' :
  process_sheet tfidf_kernel self name df w = (inr res, w') ->
  exists outs,
    Forall2 (row_outcome tfidf_kernel self) df outs /\
    SheetName res = map (fun _ => name) df /\
    Row res = map fst outs /\
    CosineSimilarity res = map snd outs /\
    Result res = map (fun o => verdict (snd o)) outs.
Proof.
  intros Hrun. apply try_reraise_inr, process_rows_shape in Hrun.
  destruct Hrun as (outs & Hall & ->). exists outs. simpl. auto.
Qed.

End Scorer.

(** ** Path validation and construction *)

Section Validation.

Variable os : OS.

(** A successful [__init__] leaves every attribute set. *)
Lemma init_ready w self w' :
  init os w = (inr self, w') -> exists p, self = ready p.
Proof.
  unfold init, bind, setup_logger.
  destruct (validate_excel_path os _ _ w) as [[e | p] w1]; [discriminate |].
  destruct (FileHandler os "text_similarity.log"); [discriminate |].
  intros [= <- _]. exists p. reflexivity.
Qed.

(** Called on an analyzer whose logger exists, the validation reports each
    violation with an exception of its own and logs it. *)
Lemma validate_excel_path_not_found path p w :
  stat os p = NoEntry ->
  validate_excel_path os (ready path) (Some p) w =
  (inl (mkExc FileNotFoundError ("File not found: " ++ p)),
   mkWorld (log_file w ++
              [(ERROR, ("Error validating Excel path: File not found: " ++ p)%string)])%list
           (written w) (vectorizer_calls w) (stdout w)).
Proof.
  intros Hstat. unfold validate_excel_path, try_except, os_path_exists.
  rewrite Hstat. reflexivity.
Qed.

Lemma validate_excel_path_not_a_file path p w :
  stat os p = Directory \/ stat os p = Special ->
  validate_excel_path os (ready path) (Some p) w =
  (inl (mkExc ValueError ("Not a file: " ++ p)),
   mkWorld (log_file w ++
              [(ERROR, ("Error validating Excel path: Not a file: " ++ p)%string)])%list
           (written w) (vectorizer_calls w) (stdout w)).
Proof.
  intros Hstat.
  unfold validate_excel_path, try_except, os_path_exists, os_path_isfile.
  destruct Hstat as [-> | ->]; reflexivity.
Qed.

Lemma validate_excel_path_wrong_extension path p w :
  stat os p = RegularFile ->
  existsb (String.eqb (PyStr.lower (snd (OsPath.splitext p)))) [".xlsx"; ".xls"] = false ->
  validate_excel_path os (ready path) (Some p) w =
  (inl (mkExc ValueError ("Not a valid Excel file: " ++ p)),
   mkWorld (log_file w ++
              [(ERROR, ("Error validating Excel path: Not a valid Excel file: " ++ p)%string)])%list
           (written w) (vectorizer_calls w) (stdout w)).
Proof.
  intros Hstat Hext.
  unfold validate_excel_path, try_except, os_path_exists, os_path_isfile.
  rewrite Hstat. cbn [negb]. rewrite Hext. reflexivity.
Qed.

(** Inside [__init__] the logger is not there yet: whatever the violation,
    the handler's own failure is what comes out, and nothing is logged. *)
Lemma init_rejects_without_log p w :
  getenv_EXCEL_FILE_PATH os = Some p ->
  stat os p <> RegularFile \/
  existsb (String.eqb (PyStr.lower (snd (OsPath.splitext p)))) [".xlsx"; ".xls"] = false ->
  init os w = (inl (no_attribute "logger"), w).
Proof.
  intros Henv Hbad.
  unfold init, bind, validate_excel_path, try_except, os_path_exists, os_path_isfile.
  rewrite Henv.
  destruct (stat os p) eqn:Hstat; try reflexivity.
  destruct Hbad as [Hbad | Hbad]; [congruence |].
  cbn [negb]. rewrite Hbad. reflexivity.
Qed.

End Validation.

(** A path in which ".xlsx" does not occur is its own report path. *)
Lemma replace_absent (c : ascii) (old' new s : string) :
  occurs (String c old') s = false ->
  PyStr.replace (String c old') new s = s.
Proof.
  unfold PyStr.replace. induction s as [| a s IH]; [reflexivity |].
  cbn [occurs]. intros H. apply orb_false_iff in H. destruct H as [Hp Ho].
  cbn [PyStr.replace_go]. rewrite Hp. f_equal. apply IH. assumption.
Qed.

(** ** The workbook aggregator *)

Section Aggregator.

Variable os : OS.
Variable tfidf_kernel : string -> string -> PyExc + score.

(** When the loop over the sheets raises, [analyze_excel_file] goes
    straight to its handler. *)
Lemma analyze_sheets_raise path xls w e w1 :
  ExcelFile os path = inr xls ->
  process_all tfidf_kernel (ready path) xls w = (inl e, w1) ->
  analyze_excel_file os tfidf_kernel (ready path) w =
  log_and_reraise (ready path) "An error occurred during analysis: " e w1.
Proof.
  intros Hopen Hrun.
  unfold analyze_excel_file, try_except.
  cbn [ready excel_file_path getattr].
  unfold bind at 1. unfold ret at 1. cbv beta iota.
  unfold bind at 1. unfold lift at 1. rewrite Hopen. cbv beta iota.
  unfold bind at 1. rewrite Hrun. reflexivity.
Qed.

(** Without a sheet there is no first result to take the keys from. *)
Lemma analyze_no_sheets path w :
  ExcelFile os path = inr [] ->
  analyze_excel_file os tfidf_kernel (ready path) w =
  log_and_reraise (ready path) "An error occurred during analysis: "
    (mkExc IndexError "list index out of range") w.
Proof.
  intros Hopen.
  unfold analyze_excel_file, try_except.
  cbn [ready excel_file_path getattr].
  unfold bind at 1. unfold ret at 1. cbv beta iota.
  unfold bind at 1. unfold lift at 1. rewrite Hopen. reflexivity.
Qed.

(** A run that succeeds has saved exactly one workbook: the sheet "Results"
    at the path obtained by replacing ".xlsx" in the input path. *)
Lemma analyze_saves_at path w w' :
  analyze_excel_file os tfidf_kernel (ready path) w = (inr tt, w') ->
  exists df,
    written w' =
    (written w ++
       [mkWritten (PyStr.replace ".xlsx" "-results.xlsx" path) "Results" df])%list.
Proof.
  intros Hrun. apply try_reraise_inr in Hrun. revert Hrun.
  cbn [ready excel_file_path getattr].
  unfold bind at 1. unfold ret at 1. cbv beta iota.
  unfold bind at 1. unfold lift at 1.
  destruct (ExcelFile os path) as [e | xls]; [discriminate |]. cbv beta iota.
  unfold bind at 1.
  pose proof (keeps_process_all tfidf_kernel (ready path) xls w) as Hkeep.
  destruct (process_all tfidf_kernel (ready path) xls w) as [[e | all] w1];
    [discriminate |].
  simpl in Hkeep. cbv beta iota.
  unfold bind at 1.
  destruct all as [| first rest]; [discriminate |].
  unfold ret at 1. cbv beta iota.
  unfold bind at 1. unfold pd_DataFrame at 1.
  destruct (same_lengths _); [| discriminate].
  unfold ret at 1. cbv beta iota.
  unfold bind at 1. unfold to_excel at 1.
  destruct (ExcelWriter os _); [discriminate |]. cbv beta iota.
  unfold logger_info, bind, getattr, emit. simpl.
  intros [= <-]. simpl. rewrite Hkeep. eauto.
Qed.

(** A sheet with a row that lacks a designated column cannot be processed. *)
Lemma missing_column1_raises path name row rows :
  series_get row column1 = None ->
  sheet_outcome tfidf_kernel (ready path) (name, row :: rows) =
  inl (mkExc KeyError "'Active Voice'").
Proof.
  intros Hcol. unfold sheet_outcome, process_sheet, try_except. simpl parse.
  simpl for_each. unfold bind at 1. unfold process_row at 1.
  unfold bind at 1. unfold getitem at 1. rewrite Hcol. reflexivity.
Qed.

Lemma missing_column2_raises path name row rows v1 :
  series_get row column1 = Some v1 ->
  series_get row column2 = None ->
  sheet_outcome tfidf_kernel (ready path) (name, row :: rows) =
  inl (mkExc KeyError "'Passive Voice'").
Proof.
  intros Hcol1 Hcol2. unfold sheet_outcome, process_sheet, try_except. simpl parse.
  simpl for_each. unfold bind at 1. unfold process_row at 1.
  unfold bind at 1. unfold getitem at 1. rewrite Hcol1.
  unfold ret at 1. cbv beta iota.
  unfold bind at 1. unfold getitem at 1. rewrite Hcol2. reflexivity.
Qed.

End Aggregator.

(** A successful run on an input path in which ".xlsx" does not occur
    (a path ending in ".xls" or ".XLSX", say) saves the report at the input
    path itself. *)
Lemma analyze_saves_at_input os tfidf_kernel path w w' :
  occurs ".xlsx" path = false ->
  analyze_excel_file os tfidf_kernel (ready path) w = (inr tt, w') ->
  exists df, written w' = (written w ++ [mkWritten path "Results" df])%list.
Proof.
  intros Habsent Hrun. apply analyze_saves_at in Hrun.
  rewrite replace_absent in Hrun; assumption.
Qed.

(** ** The properties of the specification *)

(** C1, at its failing input. An input workbook [/data/book.xls] passes the
    validation, and the report is then saved under the path of the input
    itself: replacing ".xlsx" changes nothing in a path that ends in
    ".xls". *)
Theorem xls_report_overwrites_input :
  let os := sample_os (Some "/data/book.xls") sample_workbook in
  init os empty_world = (inr (ready "/data/book.xls"), empty_world) /\
  map w_path
      (written (snd (analyze_excel_file os sample_kernel (ready "/data/book.xls")
                                        empty_world)))
  = ["/data/book.xls"].
Proof. split; vm_compute; reflexivity. Qed.

(** C2, at its failing inputs. For a path that does not exist, a directory
    and a file with another extension alike, [__init__] ends with the
    AttributeError of the missing logger, the log stays empty, and the
    script prints that AttributeError. *)
Theorem init_invalid_path_attribute_error :
  init (sample_os (Some "/data/missing.xlsx") sample_workbook) empty_world
  = (inl (no_attribute "logger"), empty_world) /\
  init (sample_os (Some "/data") sample_workbook) empty_world
  = (inl (no_attribute "logger"), empty_world) /\
  init (sample_os (Some "/data/notes.txt") sample_workbook) empty_world
  = (inl (no_attribute "logger"), empty_world) /\
  main (sample_os (Some "/data/missing.xlsx") sample_workbook) sample_kernel empty_world
  = (inr tt,
     mkWorld [] [] []
       ["An error occurred: 'TextSimilarityAnalyzer' object has no attribute 'logger'"]).
Proof. repeat split; vm_compute; reflexivity. Qed.

(** C3 as stated fails: with an empty text on one side only, the scorer
    does not call the vectorizer. *)
Lemma one_empty_side_no_vectorizer_call :
  normalize (CStr "") = "" /\ normalize (CStr "Bake a cake") <> "" /\
  ~ vectorizer_invoked
      (calculate_similarity sample_kernel (ready "/data/book.xlsx")
                            (CStr "") (CStr "Bake a cake"))
      empty_world.
Proof.
  split; [reflexivity |]. split; [discriminate |].
  intros H. apply H. reflexivity.
Qed.

(** C3, amended. When exactly one of the two normalized texts is empty, the
    scorer returns exactly 0.0 without calling the vectorizer: the world,
    and with it the list of vectorizer calls, is left as it was. *)
Theorem one_empty_side_short_circuits
    (tfidf_kernel : string -> string -> PyExc + score)
    (self : Analyzer) (a1 a2 : Cell) (w : World) :
  (normalize a1 = "" /\ normalize a2 <> "") \/
  (normalize a1 <> "" /\ normalize a2 = "") ->
  calculate_similarity tfidf_kernel self a1 a2 w = (inr score_zero, w) /\
  ~ vectorizer_invoked (calculate_similarity tfidf_kernel self a1 a2) w.
Proof.
  intros H.
  assert (Hrun : calculate_similarity tfidf_kernel self a1 a2 w = (inr score_zero, w)).
  { apply calculate_similarity_short_circuit. tauto. }
  split; [assumption |].
  unfold vectorizer_invoked. rewrite Hrun. intros Hne. apply Hne. reflexivity.
Qed.

Lemma one_empty_side_short_circuits_witness :
  calculate_similarity sample_kernel (ready "/data/book.xlsx") CNull (CInt 7)
                       empty_world
  = (inr score_zero, empty_world).
Proof.
  refine (proj1 (one_empty_side_short_circuits sample_kernel
                   (ready "/data/book.xlsx") CNull (CInt 7) empty_world _)).
  left. split; [reflexivity | discriminate].
Defined.

(** C5. In a processed sheet, a row in which either designated cell is
    missing or has an empty text (both included) is scored exactly 0.0
    without any call to the vectorizer, and its verdict is "Failed". *)
Theorem empty_side_scores_zero
    (tfidf_kernel : string -> string -> PyExc + score)
    (self : Analyzer) (name : string) (df : DataFrame) (w : World) (res : Results) :
  fst (process_sheet tfidf_kernel self name df w) = inr res ->
  forall (k : nat) (index : Label) (row : Series) (v1 v2 : Cell),
    nth_error df k = Some (index, row) ->
    series_get row column1 = Some v1 ->
    series_get row column2 = Some v2 ->
    empty_cell v1 \/ empty_cell v2 ->
    (forall w0, calculate_similarity tfidf_kernel self v1 v2 w0 = (inr score_zero, w0)) /\
    (forall w0, ~ vectorizer_invoked (calculate_similarity tfidf_kernel self v1 v2) w0) /\
    nth_error (CosineSimilarity res) k = Some score_zero /\
    nth_error (Result res) k = Some "Failed".
Proof.
  intros Hrun k index row v1 v2 Hk H1 H2 Hempty.
  assert (Hzero : forall w0,
             calculate_similarity tfidf_kernel self v1 v2 w0 = (inr score_zero, w0)).
  { intros w0. apply calculate_similarity_short_circuit.
    destruct Hempty as [H | H]; [left | right]; apply empty_cell_normalize, H. }
  split; [exact Hzero |]. split.
  { intros w0 Hcall. apply Hcall. rewrite Hzero. reflexivity. }
  destruct (process_sheet tfidf_kernel self name df w) as [r w'] eqn:Hsheet.
  simpl in Hrun. subst r.
  apply process_sheet_columns in Hsheet.
  destruct Hsheet as (outs & Hall & _ & _ & Hscore & Hres).
  destruct (Forall2_nth_left _ _ _ Hall k _ Hk) as ([n s] & Hout & Hrow).
  destruct Hrow as (v1' & v2' & w0 & H1' & H2' & Hs & _). simpl in *.
  rewrite H1 in H1'. rewrite H2 in H2'. injection H1' as <-. injection H2' as <-.
  rewrite Hzero in Hs. simpl in Hs. injection Hs as <-.
  rewrite Hscore, Hres. split.
  - apply (map_nth_error snd _ _ Hout).
  - apply (map_nth_error (fun o => verdict (snd o)) _ _ Hout).
Qed.

Lemma empty_side_scores_zero_witness :
  nth_error (CosineSimilarity
               (mkResults ["Sheet1"; "Sheet1"] [1; 2] [score_one; score_zero]
                          ["Passed"; "Failed"])) 1 = Some score_zero /\
  nth_error (Result
               (mkResults ["Sheet1"; "Sheet1"] [1; 2] [score_one; score_zero]
                          ["Passed"; "Failed"])) 1 = Some "Failed".
Proof.
  refine (proj2 (proj2 (empty_side_scores_zero sample_kernel (ready "/data/book.xlsx")
            "Sheet1"
            (parse [voices (CStr "The cat sat") (CStr "the cat sat");
                    voices CNull (CStr "Bake a cake")])
            empty_world _ _ 1%nat (LInt 1) (voices CNull (CStr "Bake a cake"))
            CNull (CStr "Bake a cake") _ _ _ _))).
  - reflexivity.
  - reflexivity.
  - reflexivity.
  - reflexivity.
  - left. left. reflexivity.
Defined.

(** C6. In a processed sheet every row has a score and a verdict: the
    score recorded for a row is the one the scorer returns for that row's
    two designated cells, and the verdict recorded beside it is "Passed"
    exactly when that score is strictly greater than the constant 0.5 and
    "Failed" otherwise; a score of exactly 0.5 is "Failed". *)
Theorem verdict_iff_above_half
    (tfidf_kernel : string -> string -> PyExc + score)
    (self : Analyzer) (name : string) (df : DataFrame) (w : World) (res : Results) :
  fst (process_sheet tfidf_kernel self name df w) = inr res ->
  List.length (CosineSimilarity res) = List.length df /\
  List.length (Result res) = List.length df /\
  (forall (k : nat) (index : Label) (row : Series),
     nth_error df k = Some (index, row) ->
     exists (v1 v2 : Cell) (s : score),
       series_get row column1 = Some v1 /\
       series_get row column2 = Some v2 /\
       (forall w0, fst (calculate_similarity tfidf_kernel self v1 v2 w0) = inr s) /\
       nth_error (CosineSimilarity res) k = Some s /\
       nth_error (Result res) k =
       Some (if SFltb score_half s then "Passed" else "Failed")) /\
  forall (k : nat) (s : score) (r : string),
    nth_error (CosineSimilarity res) k = Some s ->
    nth_error (Result res) k = Some r ->
    (r = "Passed" <-> SFltb score_half s = true) /\
    (r = "Failed" <-> SFltb score_half s = false) /\
    (s = score_half -> r = "Failed").
Proof.
  intros Hrun.
  destruct (process_sheet tfidf_kernel self name df w) as [r0 w'] eqn:Hsheet.
  simpl in Hrun. subst r0.
  apply process_sheet_columns in Hsheet.
  destruct Hsheet as (outs & Hall & _ & _ & Hscore & Hres).
  pose proof (Forall2_length Hall) as Hlen.
  rewrite Hscore, Hres, !length_map.
  split; [symmetry; exact Hlen |]. split; [symmetry; exact Hlen |]. split.
  - intros k index row Hk.
    destruct (Forall2_nth_left _ _ _ Hall k _ Hk) as ([n s] & Hout & Hrow).
    destruct Hrow as (v1 & v2 & w1 & H1 & H2 & Hs & _). cbn [fst snd] in *.
    exists v1, v2, s. split; [assumption |]. split; [assumption |]. split.
    + intros w0. rewrite <- Hs. apply pure_calculate_similarity.
    + split.
      * apply (map_nth_error snd _ _ Hout).
      * apply (map_nth_error (fun o => verdict (snd o)) _ _ Hout).
  - intros k s r Hs Hr.
    assert (Hv : r = verdict s).
    { rewrite nth_error_map in Hs, Hr.
      destruct (nth_error outs k) as [[n s0] |]; simpl in *; [| discriminate].
      congruence. }
    subst r. split; [apply verdict_passed |]. split; [apply verdict_failed |].
    intros ->. reflexivity.
Qed.

Lemma verdict_iff_above_half_witness :
  exists (v1 v2 : Cell) (s : score),
    series_get (voices CNull (CStr "Bake a cake")) column1 = Some v1 /\
    series_get (voices CNull (CStr "Bake a cake")) column2 = Some v2 /\
    (forall w0, fst (calculate_similarity sample_kernel (ready "/data/book.xlsx")
                       v1 v2 w0) = inr s) /\
    nth_error [score_one; score_zero] 1 = Some s /\
    nth_error ["Passed"; "Failed"] 1 =
    Some (if SFltb score_half s then "Passed" else "Failed").
Proof.
  refine (proj1 (proj2 (proj2 (verdict_iff_above_half sample_kernel
            (ready "/data/book.xlsx") "Sheet1"
            (parse [voices (CStr "The cat sat") (CStr "the cat sat");
                    voices CNull (CStr "Bake a cake")])
            empty_world
            (mkResults ["Sheet1"; "Sheet1"] [1; 2] [score_one; score_zero]
                       ["Passed"; "Failed"]) _)))
          1%nat (LInt 1) (voices CNull (CStr "Bake a cake")) _); reflexivity.
Defined.

(** C7. If the processing of some sheet of the workbook raises, for
    instance because a designated column is missing, [analyze_excel_file]
    raises the exception of a sheet that failed and no workbook is saved. *)
Theorem sheet_error_aborts_run
    (os : OS) (tfidf_kernel : string -> string -> PyExc + score)
    (path : string) (xls : Workbook) (w : World) :
  ExcelFile os path = inr xls ->
  (exists sheet e, In sheet xls /\
     sheet_outcome tfidf_kernel (ready path) sheet = inl e) ->
  exists sheet e, In sheet xls /\
    sheet_outcome tfidf_kernel (ready path) sheet = inl e /\
    fst (analyze_excel_file os tfidf_kernel (ready path) w) = inl e /\
    written (snd (analyze_excel_file os tfidf_kernel (ready path) w)) = written w.
Proof.
  intros Hopen Hbad.
  destruct (process_sheets_raise tfidf_kernel path xls [] w Hbad)
    as (sheet & e & Hin & Hout & Hrun).
  exists sheet, e. split; [assumption |]. split; [assumption |].
  fold (process_all tfidf_kernel (ready path) xls) in Hrun.
  pose proof (keeps_process_all tfidf_kernel (ready path) xls w) as Hkeep.
  destruct (process_all tfidf_kernel (ready path) xls w) as [r w1] eqn:Hall.
  simpl in Hrun, Hkeep. subst r.
  rewrite (analyze_sheets_raise os tfidf_kernel path xls w e w1 Hopen Hall).
  rewrite log_and_reraise_ready. simpl. auto.
Qed.

Lemma sheet_error_aborts_run_witness :
  exists sheet e, In sheet broken_workbook /\
    sheet_outcome sample_kernel (ready "/data/book.xlsx") sheet = inl e /\
    fst (analyze_excel_file (sample_os (Some "/data/book.xlsx") broken_workbook)
           sample_kernel (ready "/data/book.xlsx") empty_world) = inl e /\
    written (snd (analyze_excel_file (sample_os (Some "/data/book.xlsx") broken_workbook)
           sample_kernel (ready "/data/book.xlsx") empty_world)) = written empty_world.
Proof.
  apply (sheet_error_aborts_run (sample_os (Some "/data/book.xlsx") broken_workbook)
           sample_kernel "/data/book.xlsx" broken_workbook empty_world).
  - reflexivity.
  - exists ("Sheet2", [[(column2, CStr "Bake a cake")]]),
           (mkExc KeyError "'Active Voice'").
    split; [right; left; reflexivity | reflexivity].
Defined.

(** C8 as stated fails: on a table whose index is 0, 2 the second result
    row carries the row number 3, not 2. *)
Lemma gapped_index_row_numbers :
  fst (process_sheet sample_kernel (ready "/data/book.xlsx") "Sheet1"
         [(LInt 0, voices (CStr "The cat sat") (CStr "the cat sat"));
          (LInt 2, voices CNull (CStr "Bake a cake"))]
         empty_world)
  = inr (mkResults ["Sheet1"; "Sheet1"] [1; 3] [score_one; score_zero]
                   ["Passed"; "Failed"]) /\
  nth_error [1; 3] 1 <> Some 2.
Proof. split; [reflexivity | discriminate]. Qed.

(** C8, amended. The row number recorded for a row is its index label plus
    one; for the table [parse] builds from a sheet, whose index is
    0, 1, 2, ..., the k-th result row therefore carries the number k. *)
Theorem row_is_label_plus_one
    (tfidf_kernel : string -> string -> PyExc + score)
    (self : Analyzer) (name : string) (df : DataFrame) (w : World) (res : Results) :
  fst (process_sheet tfidf_kernel self name df w) = inr res ->
  (forall (k : nat) (index : Label) (row : Series),
     nth_error df k = Some (index, row) ->
     exists z, index = LInt z /\ nth_error (Row res) k = Some (z + 1)) /\
  (forall rows : list Series, df = parse rows ->
     forall k : nat, (k < List.length rows)%nat ->
     nth_error (Row res) k = Some (Z.of_nat k + 1)).
Proof.
  intros Hrun.
  destruct (process_sheet tfidf_kernel self name df w) as [r0 w'] eqn:Hsheet.
  simpl in Hrun. subst r0.
  apply process_sheet_columns in Hsheet.
  destruct Hsheet as (outs & Hall & _ & Hrow & _).
  assert (Hlabel : forall k index row,
             nth_error df k = Some (index, row) ->
             exists z, index = LInt z /\ nth_error (Row res) k = Some (z + 1)).
  { intros k index row Hk.
    destruct (Forall2_nth_left _ _ _ Hall k _ Hk) as ([n s] & Hout & Hitem).
    destruct Hitem as (_ & _ & _ & _ & _ & _ & Hidx). simpl in Hidx.
    exists (n - 1). split; [assumption |].
    rewrite Hrow, Z.sub_add. apply (map_nth_error fst _ _ Hout). }
  split; [exact Hlabel |].
  intros rows -> k Hk.
  destruct (nth_error rows k) as [row |] eqn:Hnth.
  - destruct (Hlabel k (LInt (Z.of_nat k)) row) as (z & Hz & Hnum).
    { unfold parse. rewrite nth_range_index, Hnth. reflexivity. }
    injection Hz as <-. assumption.
  - apply nth_error_None in Hnth. lia.
Qed.

Lemma row_is_label_plus_one_witness :
  nth_error (Row (mkResults ["Sheet1"; "Sheet1"] [1; 2] [score_one; score_zero]
                            ["Passed"; "Failed"])) 1 = Some (Z.of_nat 1 + 1).
Proof.
  refine (proj2 (row_is_label_plus_one sample_kernel (ready "/data/book.xlsx")
            "Sheet1"
            (parse [voices (CStr "The cat sat") (CStr "the cat sat");
                    voices CNull (CStr "Bake a cake")])
            empty_world
            (mkResults ["Sheet1"; "Sheet1"] [1; 2] [score_one; score_zero]
                       ["Passed"; "Failed"]) _)
          [voices (CStr "The cat sat") (CStr "the cat sat");
           voices CNull (CStr "Bake a cake")] _ 1%nat _).
  - reflexivity.
  - reflexivity.
  - simpl. lia.
Defined.

(** C10. For a workbook without sheets [analyze_excel_file] raises the
    IndexError of taking the first element of the empty list of per-sheet
    results; the error is logged and no workbook is saved. *)
Theorem empty_workbook_raises
    (os : OS) (tfidf_kernel : string -> string -> PyExc + score)
    (path : string) (w : World) :
  ExcelFile os path = inr [] ->
  analyze_excel_file os tfidf_kernel (ready path) w =
  (inl (mkExc IndexError "list index out of range"),
   mkWorld (log_file w ++
              [(ERROR, "An error occurred during analysis: list index out of range")])
           (written w) (vectorizer_calls w) (stdout w)).
Proof.
  intros Hopen. rewrite (analyze_no_sheets os tfidf_kernel path w Hopen).
  apply log_and_reraise_ready.
Qed.

Lemma empty_workbook_raises_witness :
  analyze_excel_file (sample_os (Some "/data/book.xlsx") []) sample_kernel
                     (ready "/data/book.xlsx") empty_world =
  (inl (mkExc IndexError "list index out of range"),
   mkWorld [(ERROR, "An error occurred during analysis: list index out of range")]
           [] [] []).
Proof.
  exact (empty_workbook_raises (sample_os (Some "/data/book.xlsx") [])
           sample_kernel "/data/book.xlsx" empty_world eq_refl).
Defined.

(** ** Further properties: path validation and construction *)

(** X1. [validate_excel_path] returns exactly for an existing regular file
    whose extension is ".xlsx" or ".xls" in any letter case; it then returns
    the absolute path and leaves the world, the log included, untouched.
    This holds whether or not the analyzer has a logger yet. *)
Theorem validate_excel_path_returns_iff
    (os : OS) (self : Analyzer) (path : option string) (w w' : World) (r : string) :
  validate_excel_path os self path w = (inr r, w') <->
  exists p, path = Some p /\ stat os p = RegularFile /\ excel_extension p = true /\
            r = OsPath.abspath (getcwd os) p /\ w' = w.
Proof.
  split.
  - intros Hrun. apply try_reraise_inr in Hrun. revert Hrun.
    destruct path as [p |]; [| discriminate].
    unfold os_path_exists, os_path_isfile. fold (excel_extension p).
    destruct (stat os p) eqn:Hstat; try discriminate. cbn [negb].
    destruct (excel_extension p) eqn:Hext; [| discriminate].
    intros [= <- <-]. exists p. auto.
  - intros (p & -> & Hstat & Hext & -> & ->).
    unfold validate_excel_path, try_except, os_path_exists, os_path_isfile.
    fold (excel_extension p). rewrite Hstat. cbn [negb]. rewrite Hext. reflexivity.
Qed.

(** X2. With a logger in place, a failing validation of a path raises one
    of three exceptions, each with a message of its own naming the path:
    FileNotFoundError when nothing is there, ValueError "Not a file" for a
    directory or special file, ValueError "Not a valid Excel file" for a
    regular file with another extension.  The ERROR line carrying that
    message is in the log afterwards, and no workbook has been saved. *)
Theorem validate_excel_path_failure_logged
    (os : OS) (path p : string) (w w' : World) (e : PyExc) :
  validate_excel_path os (ready path) (Some p) w = (inl e, w') ->
  ((stat os p = NoEntry /\ e = mkExc FileNotFoundError ("File not found: " ++ p)) \/
   ((stat os p = Directory \/ stat os p = Special) /\
    e = mkExc ValueError ("Not a file: " ++ p)) \/
   (stat os p = RegularFile /\ excel_extension p = false /\
    e = mkExc ValueError ("Not a valid Excel file: " ++ p))) /\
  In (ERROR, "Error validating Excel path: " ++ exc_str e) (log_file w') /\
  written w' = written w.
Proof.
  unfold validate_excel_path, try_except, os_path_exists, os_path_isfile.
  fold (excel_extension p).
  assert (Hin : forall l (x : Level * string), In x (l ++ [x])).
  { intros l x. apply in_or_app. right. left. reflexivity. }
  destruct (stat os p) eqn:Hstat; cbn [negb].
  - unfold raise at 1. rewrite log_and_reraise_ready. intros [= <- <-].
    cbn [log_file written]. auto 7.
  - unfold raise at 1. rewrite log_and_reraise_ready. intros [= <- <-].
    cbn [log_file written]. auto 7.
  - destruct (excel_extension p) eqn:Hext; cbn [negb].
    + discriminate.
    + unfold raise at 1. rewrite log_and_reraise_ready. intros [= <- <-].
      cbn [log_file written]. auto 7.
  - unfold raise at 1. rewrite log_and_reraise_ready. intros [= <- <-].
    cbn [log_file written]. auto 7.
Qed.

Lemma validate_excel_path_failure_logged_witness :
  In (ERROR, "Error validating Excel path: " ++
             exc_str (mkExc ValueError "Not a file: /data"))
     (log_file (mkWorld [(ERROR, "Error validating Excel path: Not a file: /data")]
                        [] [] [])).
Proof.
  exact (proj1 (proj2 (validate_excel_path_failure_logged
                  (sample_os (Some "/data") sample_workbook) "/data/book.xlsx"
                  "/data" empty_world _ _ eq_refl))).
Defined.

(** X3. [__init__] returns exactly when EXCEL_FILE_PATH names an existing
    regular file with an accepted extension and the log file can be opened;
    the analyzer then holds the absolute path, a vectorizer and a logger,
    and nothing has been logged. *)
Theorem init_returns_iff (os : OS) (self : Analyzer) (w w' : World) :
  init os w = (inr self, w') <->
  exists p, getenv_EXCEL_FILE_PATH os = Some p /\ stat os p = RegularFile /\
            excel_extension p = true /\
            FileHandler os "text_similarity.log" = None /\
            self = ready (OsPath.abspath (getcwd os) p) /\ w' = w.
Proof.
  unfold init, bind, validate_excel_path, try_except, os_path_exists,
    os_path_isfile, setup_logger.
  split.
  - destruct (getenv_EXCEL_FILE_PATH os) as [p |]; [| discriminate].
    fold (excel_extension p).
    destruct (stat os p) eqn:Hstat; cbn [negb]; try discriminate.
    destruct (excel_extension p) eqn:Hext; cbn [negb]; [| discriminate].
    unfold ret at 1. cbv beta iota.
    destruct (FileHandler os "text_similarity.log") eqn:Hlog; [discriminate |].
    intros [= <- <-]. exists p. auto 7.
  - intros (p & -> & Hstat & Hext & Hlog & -> & ->).
    fold (excel_extension p). rewrite Hstat. cbn [negb]. rewrite Hext.
    cbn [negb]. unfold ret at 1. cbv beta iota. rewrite Hlog. reflexivity.
Qed.

(** X4. [__init__] never raises the FileNotFoundError or ValueError of its
    validation: whatever is wrong with the path (variable unset, nothing
    there, a directory, another extension), what comes out is the
    AttributeError of the logger that is not yet set.  With an acceptable
    path the only exception left is the one of opening the log file.
    Either way nothing has been logged. *)
Theorem init_exceptions (os : OS) (w w' : World) (e : PyExc) :
  init os w = (inl e, w') ->
  w' = w /\
  ((e = no_attribute "logger" /\
    (getenv_EXCEL_FILE_PATH os = None \/
     exists p, getenv_EXCEL_FILE_PATH os = Some p /\
               (stat os p <> RegularFile \/ excel_extension p = false))) \/
   (FileHandler os "text_similarity.log" = Some e /\
    exists p, getenv_EXCEL_FILE_PATH os = Some p /\ stat os p = RegularFile /\
              excel_extension p = true)).
Proof.
  unfold init, bind, validate_excel_path, try_except, os_path_exists,
    os_path_isfile, setup_logger, log_and_reraise, logger_error, bind, getattr.
  cbn [logger]. cbv [raise ret].
  destruct (getenv_EXCEL_FILE_PATH os) as [p |].
  - fold (excel_extension p).
    destruct (stat os p) eqn:Hstat; cbn [negb].
    + intros [= <- <-]. split; [reflexivity |]. left. split; [reflexivity |].
      right. exists p. split; [reflexivity |]. left. congruence.
    + intros [= <- <-]. split; [reflexivity |]. left. split; [reflexivity |].
      right. exists p. split; [reflexivity |]. left. congruence.
    + destruct (excel_extension p) eqn:Hext; cbn [negb].
      * destruct (FileHandler os "text_similarity.log") as [e0 |] eqn:Hlog;
          [| discriminate].
        intros [= <- <-]. split; [reflexivity |]. right. split; [reflexivity |].
        exists p. auto.
      * intros [= <- <-]. split; [reflexivity |]. left. split; [reflexivity |].
        right. exists p. auto.
    + intros [= <- <-]. split; [reflexivity |]. left. split; [reflexivity |].
      right. exists p. split; [reflexivity |]. left. congruence.
  - intros [= <- <-]. auto.
Qed.

Lemma init_exceptions_witness :
  empty_world = empty_world /\
  ((mkExc OSError "[Errno 13] Permission denied: 'text_similarity.log'"
    = no_attribute "logger" /\
    (Some "/data/book.xlsx" = None \/
     exists p, Some "/data/book.xlsx" = Some p /\
               (sample_stat p <> RegularFile \/ excel_extension p = false))) \/
   (Some (mkExc OSError "[Errno 13] Permission denied: 'text_similarity.log'") =
    Some (mkExc OSError "[Errno 13] Permission denied: 'text_similarity.log'") /\
    exists p, Some "/data/book.xlsx" = Some p /\ sample_stat p = RegularFile /\
              excel_extension p = true)).
Proof.
  exact (init_exceptions
           (mkOS (Some "/data/book.xlsx") sample_stat "/home/user" (inr "")
                 (fun _ => inr sample_workbook) (fun _ => None)
                 (fun _ => Some (mkExc OSError
                    "[Errno 13] Permission denied: 'text_similarity.log'")))
           empty_world _ _ eq_refl).
Defined.

(** X6. When EXCEL_FILE_PATH names something that is not an acceptable
    workbook, the script prints the AttributeError of the missing logger as
    its one line of output; nothing is logged, saved or vectorized. *)
Theorem main_invalid_path
    (os : OS) (tfidf_kernel : string -> string -> PyExc + score)
    (p : string) (w : World) :
  getenv_EXCEL_FILE_PATH os = Some p ->
  stat os p <> RegularFile \/ excel_extension p = false ->
  main os tfidf_kernel w =
  (inr tt,
   mkWorld (log_file w) (written w) (vectorizer_calls w)
           (stdout w ++
            ["An error occurred: 'TextSimilarityAnalyzer' object has no attribute 'logger'"])).
Proof.
  intros Henv Hbad. unfold main, try_except. rewrite Henv.
  unfold bind at 1. unfold ret at 1. cbv beta iota. unfold bind at 1.
  rewrite (init_rejects_without_log os p w Henv Hbad). reflexivity.
Qed.

Lemma main_invalid_path_witness :
  main (sample_os (Some "/data/notes.txt") sample_workbook) sample_kernel empty_world =
  (inr tt,
   mkWorld [] [] []
     ["An error occurred: 'TextSimilarityAnalyzer' object has no attribute 'logger'"]).
Proof.
  apply (main_invalid_path (sample_os (Some "/data/notes.txt") sample_workbook)
           sample_kernel "/data/notes.txt" empty_world).
  - reflexivity.
  - right. reflexivity.
Defined.

(** ** Further properties: the scorer *)

Lemma lower_ascii_idempotent (c : ascii) :
  PyStr.lower_ascii (PyStr.lower_ascii c) = PyStr.lower_ascii c.
Proof. destruct c as [[] [] [] [] [] [] [] []]; reflexivity. Qed.

Lemma lower_idempotent (s : string) : PyStr.lower (PyStr.lower s) = PyStr.lower s.
Proof.
  induction s as [| c s IH]; simpl; [reflexivity |].
  rewrite lower_ascii_idempotent, IH. reflexivity.
Qed.

Lemma lower_empty (s : string) : PyStr.lower s = "" <-> s = "".
Proof. destruct s; simpl; split; congruence. Qed.

Lemma str_of_int_nonempty (z : Z) : PyStr.str_of_int z <> "".
Proof.
  unfold PyStr.str_of_int, NilZero.string_of_int, NilZero.string_of_uint.
  destruct (Z.to_int z) as [d | d]; [| discriminate].
  destruct d; discriminate.
Qed.

(** X7. A cell is compared as the empty text exactly when it is missing or
    is the empty string: a number or a boolean in a cell, 0 and False
    included, is never taken for an empty answer. *)
Theorem normalize_empty_iff (c : Cell) :
  normalize c = "" <-> c = CNull \/ c = CStr "".
Proof.
  split.
  - destruct c as [| s | z | b]; unfold normalize; simpl.
    + auto.
    + intros H. apply (proj1 (lower_empty s)) in H. subst s. auto.
    + intros H. apply (proj1 (lower_empty _)) in H.
      destruct (str_of_int_nonempty z H).
    + destruct b; discriminate.
  - intros [-> | ->]; reflexivity.
Qed.

(** X8. The normalizer is idempotent: normalizing the text a cell
    normalizes to gives that text again. *)
Theorem normalize_idempotent (c : Cell) :
  normalize (CStr (normalize c)) = normalize c.
Proof.
  destruct c as [| s | z | b]; unfold normalize; simpl;
    try apply lower_idempotent; reflexivity.
Qed.

(** X9. Scoring ignores letter case: two pairs of texts that agree up to
    case run the scorer to the same outcome and the same world. *)
Theorem calculate_similarity_case_insensitive
    (tfidf_kernel : string -> string -> PyExc + score) (self : Analyzer)
    (a a' b b' : string) (w : World) :
  PyStr.lower a = PyStr.lower a' ->
  PyStr.lower b = PyStr.lower b' ->
  calculate_similarity tfidf_kernel self (CStr a) (CStr b) w =
  calculate_similarity tfidf_kernel self (CStr a') (CStr b') w.
Proof.
  intros Ha Hb. unfold calculate_similarity, normalize. simpl.
  rewrite Ha, Hb. reflexivity.
Qed.

Lemma calculate_similarity_case_insensitive_witness :
  calculate_similarity sample_kernel (ready "/data/book.xlsx")
    (CStr "The Cat Sat") (CStr "BAKE a cake") empty_world =
  calculate_similarity sample_kernel (ready "/data/book.xlsx")
    (CStr "the cat sat") (CStr "Bake A Cake") empty_world.
Proof.
  apply (calculate_similarity_case_insensitive sample_kernel (ready "/data/book.xlsx")
           "The Cat Sat" "the cat sat" "BAKE a cake" "Bake A Cake" empty_world);
    reflexivity.
Defined.

(** The scorer of an initialised analyzer, in full. *)
Lemma calculate_similarity_ready
    (tfidf_kernel : string -> string -> PyExc + score) (path : string)
    (a1 a2 : Cell) (w : World) :
  calculate_similarity tfidf_kernel (ready path) a1 a2 w =
  if PyStr.truthy (normalize a1) && PyStr.truthy (normalize a2) then
    match tfidf_kernel (normalize a1) (normalize a2) with
    | inr s => (inr s, vectorized w [(normalize a1, normalize a2)])
    | inl e =>
        (inl e, logged (vectorized w [(normalize a1, normalize a2)]) ERROR
                       ("Error calculating similarity: " ++ exc_str e))
    end
  else (inr score_zero, w).
Proof.
  unfold calculate_similarity, try_except.
  destruct (PyStr.truthy (normalize a1) && PyStr.truthy (normalize a2));
    [| reflexivity].
  unfold fit_transform_kernel, bind. cbn [ready vectorizer getattr ret].
  destruct (tfidf_kernel (normalize a1) (normalize a2)) as [e | s]; reflexivity.
Qed.

Lemma truthy_nonempty (s : string) : s <> "" -> PyStr.truthy s = true.
Proof. destruct s; [contradiction | reflexivity]. Qed.

(** X10. When both cells hold ASCII text and both normalized texts are
    non-empty, the scorer hands exactly the pair of lowercased texts to the
    vectorizer, once.  A score of the kernel is returned as it is, with
    nothing logged; an exception of the kernel is logged in one ERROR line
    and raised again unchanged. *)
Theorem calculate_similarity_calls_kernel
    (tfidf_kernel : string -> string -> PyExc + score) (path : string)
    (a1 a2 : Cell) (w : World) :
  ascii_only (str a1) = true -> ascii_only (str a2) = true ->
  normalize a1 <> "" -> normalize a2 <> "" ->
  calculate_similarity tfidf_kernel (ready path) a1 a2 w =
  match tfidf_kernel (normalize a1) (normalize a2) with
  | inr s => (inr s, vectorized w [(normalize a1, normalize a2)])
  | inl e =>
      (inl e, logged (vectorized w [(normalize a1, normalize a2)]) ERROR
                     ("Error calculating similarity: " ++ exc_str e))
  end.
Proof.
  intros _ _ H1 H2. rewrite calculate_similarity_ready.
  rewrite (truthy_nonempty _ H1), (truthy_nonempty _ H2). reflexivity.
Qed.

Lemma calculate_similarity_calls_kernel_witness :
  calculate_similarity observed_kernel (ready "/data/book.xlsx")
    (CStr "THE") (CStr "the") empty_world =
  (inl (mkExc ValueError
          "empty vocabulary; perhaps the documents only contain stop words"),
   logged (vectorized empty_world [("the", "the")]) ERROR
          "Error calculating similarity: empty vocabulary; perhaps the documents only contain stop words").
Proof.
  apply (calculate_similarity_calls_kernel observed_kernel "/data/book.xlsx"
           (CStr "THE") (CStr "the") empty_world);
    (reflexivity || discriminate).
Defined.

Lemma app_one_neq {A} (l : list A) (x : A) : (l ++ [x])%list <> l.
Proof.
  intros H. apply (f_equal (@List.length A)) in H.
  rewrite length_app in H. simpl in H. lia.
Qed.

(** X11. An initialised analyzer calls the vectorizer exactly when both
    normalized texts are non-empty. *)
Theorem vectorizer_invoked_iff
    (tfidf_kernel : string -> string -> PyExc + score) (path : string)
    (a1 a2 : Cell) (w : World) :
  vectorizer_invoked (calculate_similarity tfidf_kernel (ready path) a1 a2) w <->
  normalize a1 <> "" /\ normalize a2 <> "".
Proof.
  unfold vectorizer_invoked. split.
  - intros Hcall.
    destruct (string_dec (normalize a1) "") as [E1 | N1].
    { exfalso. apply Hcall.
      rewrite calculate_similarity_short_circuit by auto. reflexivity. }
    destruct (string_dec (normalize a2) "") as [E2 | N2].
    { exfalso. apply Hcall.
      rewrite calculate_similarity_short_circuit by auto. reflexivity. }
    auto.
  - intros [N1 N2]. rewrite calculate_similarity_ready.
    rewrite (truthy_nonempty _ N1), (truthy_nonempty _ N2). cbn [andb].
    destruct (tfidf_kernel (normalize a1) (normalize a2)); simpl; apply app_one_neq.
Qed.

(** ** Further properties: the sheet processor *)

Lemma vectorized_nil (w : World) : vectorized w [] = w.
Proof. destruct w. unfold vectorized. simpl. rewrite app_nil_r. reflexivity. Qed.

Lemma vectorized_app (w : World) (a b : list (string * string)) :
  vectorized (vectorized w a) b = vectorized w (a ++ b).
Proof. unfold vectorized. simpl. rewrite app_assoc. reflexivity. Qed.

Lemma for_each_app {A S} (body : S -> A -> M S) (xs ys : list A) : forall acc w,
  for_each body (xs ++ ys) acc w = bind (for_each body xs acc) (for_each body ys) w.
Proof.
  induction xs as [| x xs IH]; intros acc w; [reflexivity |].
  change (bind (body acc x) (for_each body (xs ++ ys)) w =
          bind (bind (body acc x) (for_each body xs)) (for_each body ys) w).
  unfold bind. destruct (body acc x w) as [[e | acc'] w1]; [reflexivity |].
  rewrite IH. reflexivity.
Qed.

Section SheetProcessor.

Variable tfidf_kernel : string -> string -> PyExc + score.
Variable path : string.

Lemma process_row_scorable name acc item w :
  row_scorable tfidf_kernel item = true ->
  exists acc',
    process_row tfidf_kernel (ready path) name acc item w =
    (inr acc', vectorized w (row_texts item)).
Proof.
  destruct item as [index row]. unfold row_scorable, row_texts, process_row, getitem.
  cbn [fst snd].
  destruct (series_get row column1) as [v1 |]; [| discriminate].
  destruct (series_get row column2) as [v2 |]; [| discriminate].
  destruct index as [z | l]; [| discriminate].
  unfold bind at 1. unfold ret at 1. cbv beta iota.
  unfold bind at 1. unfold ret at 1. cbv beta iota.
  unfold bind at 1. rewrite calculate_similarity_ready.
  destruct (PyStr.truthy (normalize v1) && PyStr.truthy (normalize v2)).
  - destruct (tfidf_kernel (normalize v1) (normalize v2)) as [e | s]; [discriminate |].
    intros _. eexists. reflexivity.
  - intros _. rewrite vectorized_nil. eexists. reflexivity.
Qed.

Lemma process_row_not_scorable name acc item w :
  row_scorable tfidf_kernel item = false ->
  exists e w1, process_row tfidf_kernel (ready path) name acc item w = (inl e, w1).
Proof.
  destruct item as [index row]. unfold row_scorable, process_row, getitem.
  cbn [fst snd].
  destruct (series_get row column1) as [v1 |]; [| intros _; eexists _, _; reflexivity].
  destruct (series_get row column2) as [v2 |]; [| intros _; eexists _, _; reflexivity].
  unfold bind at 1. unfold ret at 1. cbv beta iota.
  unfold bind at 1. unfold ret at 1. cbv beta iota.
  unfold bind at 1. rewrite calculate_similarity_ready.
  destruct (PyStr.truthy (normalize v1) && PyStr.truthy (normalize v2)).
  - destruct (tfidf_kernel (normalize v1) (normalize v2)) as [e | s].
    + intros _. eexists _, _. reflexivity.
    + destruct index as [z | l]; [discriminate |].
      intros _. eexists _, _. reflexivity.
  - destruct index as [z | l]; [discriminate |].
    intros _. eexists _, _. reflexivity.
Qed.

Lemma rows_scorable name df : forall acc w,
  forallb (row_scorable tfidf_kernel) df = true ->
  exists res,
    for_each (process_row tfidf_kernel (ready path) name) df acc w =
    (inr res, vectorized w (flat_map row_texts df)).
Proof.
  induction df as [| item rest IH]; intros acc w Hall.
  - exists acc. simpl. rewrite vectorized_nil. reflexivity.
  - simpl in Hall. apply andb_true_iff in Hall. destruct Hall as [Hitem Hrest].
    destruct (process_row_scorable name acc item w Hitem) as (acc' & Hrow).
    destruct (IH acc' (vectorized w (row_texts item)) Hrest) as (res & Hloop).
    exists res.
    change (bind (process_row tfidf_kernel (ready path) name acc item)
                 (for_each (process_row tfidf_kernel (ready path) name) rest) w =
            (inr res, vectorized w (flat_map row_texts (item :: rest)))).
    unfold bind. rewrite Hrow, Hloop. simpl flat_map.
    rewrite vectorized_app. reflexivity.
Qed.

Lemma rows_not_scorable name df : forall acc w,
  forallb (row_scorable tfidf_kernel) df = false ->
  exists e w1,
    for_each (process_row tfidf_kernel (ready path) name) df acc w = (inl e, w1).
Proof.
  induction df as [| item rest IH]; intros acc w Hall; [discriminate |].
  simpl in Hall.
  change (exists e w1,
    bind (process_row tfidf_kernel (ready path) name acc item)
         (for_each (process_row tfidf_kernel (ready path) name) rest) w = (inl e, w1)).
  unfold bind.
  destruct (row_scorable tfidf_kernel item) eqn:Hitem.
  - destruct (process_row_scorable name acc item w Hitem) as (acc' & ->).
    apply IH. assumption.
  - destruct (process_row_not_scorable name acc item w Hitem) as (e & w1 & ->).
    eauto.
Qed.

(** What [process_sheet] of an initialised analyzer does, by cases. *)
Lemma process_sheet_ready name df w :
  (forallb (row_scorable tfidf_kernel) df = true /\
   exists res, process_sheet tfidf_kernel (ready path) name df w =
               (inr res, vectorized w (flat_map row_texts df))) \/
  (forallb (row_scorable tfidf_kernel) df = false /\
   exists e w1,
     for_each (process_row tfidf_kernel (ready path) name) df empty_results w
       = (inl e, w1) /\
     process_sheet tfidf_kernel (ready path) name df w =
     (inl e, logged w1 ERROR
               (("Error processing sheet '" ++ name ++ "': ") ++ exc_str e))).
Proof.
  unfold process_sheet, try_except.
  destruct (forallb (row_scorable tfidf_kernel) df) eqn:Hall; [left | right];
    (split; [reflexivity |]).
  - destruct (rows_scorable name df empty_results w Hall) as (res & ->). eauto.
  - destruct (rows_not_scorable name df empty_results w Hall) as (e & w1 & ->).
    exists e, w1. split; reflexivity.
Qed.

End SheetProcessor.


(** X13. A sheet that is processed without error leaves one trace only:
    the vectorizer was called once for each row whose two texts are both
    non-empty, and for no other row.  Nothing is logged, saved or
    printed. *)
Theorem process_sheet_trace
    (tfidf_kernel : string -> string -> PyExc + score) (path name : string)
    (df : DataFrame) (w w' : World) (res : Results) :
  process_sheet tfidf_kernel (ready path) name df w = (inr res, w') ->
  log_file w' = log_file w /\ written w' = written w /\ stdout w' = stdout w /\
  exists texts,
    vectorizer_calls w' = (vectorizer_calls w ++ texts)%list /\
    List.length texts = List.length (flat_map row_texts df).
Proof.
  destruct (process_sheet_ready tfidf_kernel path name df w)
    as [(_ & res0 & Hrun) | (_ & e & w1 & _ & Hrun)]; rewrite Hrun.
  - intros [= _ <-]. cbn [vectorized log_file written stdout vectorizer_calls].
    repeat split. exists (flat_map row_texts df). auto.
  - discriminate.
Qed.

Lemma process_sheet_trace_witness :
  log_file (vectorized empty_world [("the cat sat", "the cat sat")]) =
    log_file empty_world /\
  written (vectorized empty_world [("the cat sat", "the cat sat")]) =
    written empty_world /\
  stdout (vectorized empty_world [("the cat sat", "the cat sat")]) =
    stdout empty_world /\
  exists texts,
    vectorizer_calls (vectorized empty_world [("the cat sat", "the cat sat")]) =
      (vectorizer_calls empty_world ++ texts)%list /\
    List.length texts =
      List.length
        (flat_map row_texts
           (parse [voices (CStr "The cat sat") (CStr "the cat sat");
                   voices CNull (CStr "Bake a cake")])).
Proof.
  exact (process_sheet_trace sample_kernel "/data/book.xlsx" "Sheet1"
           (parse [voices (CStr "The cat sat") (CStr "the cat sat");
                   voices CNull (CStr "Bake a cake")])
           empty_world _ _ eq_refl).
Defined.

(** X14. When a sheet cannot be processed, what comes out is the very
    exception that stopped the loop over the rows, and the world is the one
    the loop left with one more ERROR line, which names the sheet and
    carries the exception's message; no workbook is saved. *)
Theorem process_sheet_failure_logged
    (tfidf_kernel : string -> string -> PyExc + score) (path name : string)
    (df : DataFrame) (w w' : World) (e : PyExc) :
  process_sheet tfidf_kernel (ready path) name df w = (inl e, w') ->
  exists w1,
    for_each (process_row tfidf_kernel (ready path) name) df empty_results w
      = (inl e, w1) /\
    w' = logged w1 ERROR (("Error processing sheet '" ++ name ++ "': ") ++ exc_str e) /\
    written w' = written w.
Proof.
  destruct (process_sheet_ready tfidf_kernel path name df w)
    as [(_ & res0 & Hrun) | (_ & e0 & w1 & Hloop & Hrun)]; rewrite Hrun.
  - discriminate.
  - intros [= <- <-]. exists w1. split; [assumption |]. split; [reflexivity |].
    pose proof (keeps_for_each (process_row tfidf_kernel (ready path) name) df
                  (keeps_process_row tfidf_kernel (ready path) name)
                  empty_results w) as Hkeep.
    rewrite Hloop in Hkeep. exact Hkeep.
Qed.

Lemma process_sheet_failure_logged_witness :
  exists w1,
    for_each (process_row observed_kernel (ready "/data/book.xlsx") "Sheet1")
      (parse [voices (CStr "The cat sat") (CStr "the cat sat");
              voices (CStr "The") (CStr "the")])
      empty_results empty_world
    = (inl (mkExc ValueError
              "empty vocabulary; perhaps the documents only contain stop words"),
       w1) /\
    logged
      (logged (vectorized empty_world [("the cat sat", "the cat sat"); ("the", "the")])
         ERROR "Error calculating similarity: empty vocabulary; perhaps the documents only contain stop words")
      ERROR "Error processing sheet 'Sheet1': empty vocabulary; perhaps the documents only contain stop words"
    = logged w1 ERROR
        (("Error processing sheet '" ++ "Sheet1" ++ "': ") ++
         exc_str (mkExc ValueError
                    "empty vocabulary; perhaps the documents only contain stop words")) /\
    written
      (logged
        (logged (vectorized empty_world [("the cat sat", "the cat sat"); ("the", "the")])
           ERROR "Error calculating similarity: empty vocabulary; perhaps the documents only contain stop words")
        ERROR "Error processing sheet 'Sheet1': empty vocabulary; perhaps the documents only contain stop words")
    = written empty_world.
Proof.
  exact (process_sheet_failure_logged observed_kernel "/data/book.xlsx" "Sheet1"
           (parse [voices (CStr "The cat sat") (CStr "the cat sat");
                   voices (CStr "The") (CStr "the")])
           empty_world _ _ eq_refl).
Defined.

(** X15. A sheet with rows from which a designated column is missing
    cannot be processed: its first row raises the KeyError of that column,
    "Active Voice" being looked up first, before any text reaches the
    vectorizer, and the sheet ends in that exception, logged once under the
    sheet's name. *)
Theorem missing_column_aborts_sheet
    (tfidf_kernel : string -> string -> PyExc + score) (path name : string)
    (index : Label) (row : Series) (after : DataFrame) (col : string) (w : World) :
  (col = column1 /\ series_get row column1 = None) \/
  (col = column2 /\ series_get row column1 <> None /\ series_get row column2 = None) ->
  process_sheet tfidf_kernel (ready path) name ((index, row) :: after) w =
  (inl (mkExc KeyError (repr_str col)),
   logged w ERROR (("Error processing sheet '" ++ name ++ "': ") ++ repr_str col)).
Proof.
  intros Hcol. unfold process_sheet, try_except.
  change (for_each (process_row tfidf_kernel (ready path) name)
            ((index, row) :: after) empty_results w)
    with (bind (process_row tfidf_kernel (ready path) name empty_results (index, row))
            (for_each (process_row tfidf_kernel (ready path) name) after) w).
  unfold bind at 1. unfold process_row at 1. unfold bind at 1. unfold getitem at 1.
  destruct Hcol as [[-> Hc1] | (-> & Hc1 & Hc2)].
  - rewrite Hc1. reflexivity.
  - destruct (series_get row column1) as [v1 |]; [| contradiction].
    unfold ret at 1. cbv beta iota. unfold bind at 1. unfold getitem at 1.
    rewrite Hc2. reflexivity.
Qed.

Lemma missing_column_aborts_sheet_witness :
  process_sheet sample_kernel (ready "/data/book.xlsx") "Sheet2"
    ((LInt 0, [(column1, CStr "Quantum")]) :: [(LInt 1, [(column1, CStr "Bake")])])
    empty_world =
  (inl (mkExc KeyError (repr_str column2)),
   logged empty_world ERROR
          (("Error processing sheet '" ++ "Sheet2" ++ "': ") ++ repr_str column2)).
Proof.
  apply (missing_column_aborts_sheet sample_kernel "/data/book.xlsx" "Sheet2"
           (LInt 0) [(column1, CStr "Quantum")]
           [(LInt 1, [(column1, CStr "Bake")])] column2 empty_world).
  right. split; [reflexivity |]. split; [discriminate | reflexivity].
Defined.

(** ** Further properties: the workbook aggregator *)

Lemma range_index_numbers tfidf_kernel self rows : forall start outs,
  Forall2 (row_outcome tfidf_kernel self) (range_index start rows) outs ->
  map fst outs = map (fun k => start + Z.of_nat k + 1) (seq 0 (List.length rows)).
Proof.
  induction rows as [| r rest IH]; intros start outs Hall.
  - inversion Hall. reflexivity.
  - simpl range_index in Hall. inversion Hall as [| item [n s] df outs' Hitem Hrest];
      subst.
    destruct Hitem as (_ & _ & _ & _ & _ & _ & Hidx). simpl in Hidx.
    injection Hidx as Hidx.
    cbn [List.length seq map fst]. f_equal; [lia |].
    rewrite (IH _ _ Hrest), <- seq_shift, map_map.
    apply map_ext. intros k. lia.
Qed.

Lemma map_const_repeat {A B} (b : B) (l : list A) :
  map (fun _ => b) l = repeat b (List.length l).
Proof. induction l as [| a l IH]; simpl; [| rewrite IH]; reflexivity. Qed.

Lemma range_index_length rows : forall start,
  List.length (range_index start rows) = List.length rows.
Proof. induction rows as [| r rest IH]; intros start; simpl; [| rewrite IH]; reflexivity. Qed.

(** The results of a sheet read from a workbook. *)
Lemma process_sheet_report tfidf_kernel self name rows w res w' :
  process_sheet tfidf_kernel self name (parse rows) w = (inr res, w') ->
  sheet_report (name, rows) res.
Proof.
  intros Hrun. apply process_sheet_columns in Hrun.
  destruct Hrun as (outs & Hall & Hname & Hrow & Hscore & Hres).
  unfold sheet_report. cbn [fst snd]. repeat split.
  - rewrite Hname, map_const_repeat. unfold parse. rewrite range_index_length.
    reflexivity.
  - rewrite Hrow. unfold parse in Hall. rewrite (range_index_numbers _ _ _ _ _ Hall).
    reflexivity.
  - rewrite Hres, Hscore, map_map. reflexivity.
  - rewrite Hscore, length_map, <- (Forall2_length Hall). apply range_index_length.
Qed.

Lemma row_numbers_length (n : nat) : List.length (row_numbers n) = n.
Proof. unfold row_numbers. rewrite length_map. apply length_seq. Qed.

(** The report of a workbook, from the shape of the results of its sheets. *)
Lemma report_columns xls rs :
  Forall2 sheet_report xls rs ->
  flatten SheetName rs = flat_map (fun s => repeat (fst s) (List.length (snd s))) xls /\
  flatten Row rs = flat_map (fun s => row_numbers (List.length (snd s))) xls /\
  flatten Result rs = map verdict (flatten CosineSimilarity rs).
Proof.
  unfold flatten. induction 1 as [| sheet res xls rs (Hn & Hr & Hv & _) _ IH].
  - auto.
  - destruct IH as (IHn & IHr & IHv). cbn [map concat flat_map].
    rewrite IHn, IHr, IHv, Hn, Hr, Hv, map_app. auto.
Qed.

Lemma report_lengths xls rs :
  Forall2 sheet_report xls rs ->
  List.length (flatten SheetName rs) = List.length (concat (map snd xls)) /\
  List.length (flatten Row rs) = List.length (concat (map snd xls)) /\
  List.length (flatten CosineSimilarity rs) = List.length (concat (map snd xls)) /\
  List.length (flatten Result rs) = List.length (concat (map snd xls)).
Proof.
  unfold flatten. induction 1 as [| sheet res xls rs (Hn & Hr & Hv & Hl) _ IH].
  - auto.
  - destruct IH as (IHn & IHr & IHs & IHv). cbn [map concat].
    rewrite !length_app, IHn, IHr, IHs, IHv, Hn, Hr, Hv, Hl.
    rewrite repeat_length, row_numbers_length, length_map, Hl. auto.
Qed.

Section Workbooks.

Variable os : OS.
Variable tfidf_kernel : string -> string -> PyExc + score.
Variable path : string.

Lemma collect_step self name rows rest acc w :
  for_each (collect_sheet tfidf_kernel self) ((name, rows) :: rest) acc w =
  match process_sheet tfidf_kernel self name (parse rows) w with
  | (inr res, w1) =>
      for_each (collect_sheet tfidf_kernel self) rest (acc ++ [res])%list w1
  | (inl e, w1) => (inl e, w1)
  end.
Proof.
  cbn [for_each]. unfold bind at 1. unfold collect_sheet at 1. unfold bind at 1.
  destruct (process_sheet tfidf_kernel self name (parse rows) w) as [[e | res] w1];
    reflexivity.
Qed.

(** What the loop over the sheets does, by cases. *)
Lemma process_all_ready xls : forall acc w,
  (forallb (sheet_scorable tfidf_kernel) xls = true /\
   exists rs,
     for_each (collect_sheet tfidf_kernel (ready path)) xls acc w =
     (inr (acc ++ rs)%list, vectorized w (flat_map sheet_texts xls)) /\
     Forall2 sheet_report xls rs) \/
  (forallb (sheet_scorable tfidf_kernel) xls = false /\
   exists e w1,
     for_each (collect_sheet tfidf_kernel (ready path)) xls acc w = (inl e, w1)).
Proof.
  induction xls as [| [name rows] rest IH]; intros acc w.
  - left. split; [reflexivity |]. exists []. simpl.
    rewrite app_nil_r, vectorized_nil. split; [reflexivity | constructor].
  - rewrite !collect_step.
    cbn [forallb]. unfold sheet_scorable at 1 3. cbn [snd].
    destruct (process_sheet_ready tfidf_kernel path name (parse rows) w)
      as [(Hall & res & Hrun) | (Hall & e & w1 & _ & Hrun)]; rewrite Hrun, Hall.
    + cbn [andb].
      destruct (IH (acc ++ [res])%list (vectorized w (flat_map row_texts (parse rows))))
        as [(Hrest & rs & Hloop & Hshape) | (Hrest & e & w1 & Hloop)];
        rewrite Hloop, Hrest.
      * left. split; [reflexivity |]. exists (res :: rs).
        rewrite <- app_assoc, vectorized_app. split; [reflexivity |].
        constructor; [| assumption].
        apply (process_sheet_report _ _ _ _ _ _ _ Hrun).
      * right. split; [reflexivity |]. eauto.
    + right. split; [reflexivity |]. eauto.
Qed.

(** A run on a workbook that has a sheet and whose sheets can all be
    processed, with a writer that takes the report. *)
Lemma analyze_scorable xls w :
  ExcelFile os path = inr xls ->
  xls <> [] ->
  forallb (sheet_scorable tfidf_kernel) xls = true ->
  ExcelWriter os (report_path path) = None ->
  exists table,
    analyze_excel_file os tfidf_kernel (ready path) w =
    (inr tt,
     mkWorld (log_file w ++ [(INFO, "Results saved to: " ++ report_path path)])
             (written w ++ [mkWritten (report_path path) "Results" table])
             (vectorizer_calls w ++ flat_map sheet_texts xls)
             (stdout w)) /\
    SheetName table = flat_map (fun s => repeat (fst s) (List.length (snd s))) xls /\
    Row table = flat_map (fun s => row_numbers (List.length (snd s))) xls /\
    Result table = map verdict (CosineSimilarity table) /\
    List.length (CosineSimilarity table) = List.length (concat (map snd xls)).
Proof.
  intros Hopen Hsheets Hall Hwriter.
  destruct (process_all_ready xls [] w)
    as [(_ & rs & Hloop & Hshape) | (Hbad & _)]; [| congruence].
  destruct (report_columns xls rs Hshape) as (Hn & Hr & Hv).
  destruct (report_lengths xls rs Hshape) as (Ln & Lr & Ls & Lv).
  exists (mkResults (flatten SheetName rs) (flatten Row rs)
                    (flatten CosineSimilarity rs) (flatten Result rs)).
  split; [| cbn [SheetName Row CosineSimilarity Result]; auto].
  unfold analyze_excel_file, try_except.
  cbn [ready excel_file_path getattr].
  unfold bind at 1. unfold ret at 1. cbv beta iota.
  unfold bind at 1. unfold lift at 1. rewrite Hopen. cbv beta iota.
  unfold bind at 1. unfold process_all. rewrite Hloop. cbn [app].
  destruct rs as [| first rs'].
  { inversion Hshape. subst. contradiction. }
  unfold bind at 1. unfold ret at 1. cbv beta iota.
  unfold bind at 1. unfold pd_DataFrame, same_lengths.
  cbn [SheetName Row CosineSimilarity Result].
  rewrite Ln, Lr, Ls, Lv, Nat.eqb_refl. cbn [andb].
  unfold ret at 1. cbv beta iota.
  unfold bind at 1. unfold to_excel. fold (report_path path). rewrite Hwriter.
  reflexivity.
Qed.

End Workbooks.

(** X16. A run on a workbook that has at least one sheet, all of whose
    sheets can be processed, with a writer that takes the report, returns
    normally.  It saves exactly one workbook, the sheet "Results" at the
    report path, logs the one INFO line naming that path, prints nothing
    and only adds to the calls of the vectorizer.  The table holds the
    results in sheet order, then row order: each sheet's name once per row,
    rows numbered from 1 again in each sheet, and a verdict for every
    score. *)
Theorem analyze_excel_file_succeeds
    (os : OS) (tfidf_kernel : string -> string -> PyExc + score) (path : string)
    (xls : Workbook) (w : World) :
  ExcelFile os path = inr xls ->
  xls <> [] ->
  forallb (sheet_scorable tfidf_kernel) xls = true ->
  ExcelWriter os (report_path path) = None ->
  exists table texts,
    analyze_excel_file os tfidf_kernel (ready path) w =
    (inr tt,
     mkWorld (log_file w ++ [(INFO, "Results saved to: " ++ report_path path)])
             (written w ++ [mkWritten (report_path path) "Results" table])
             (vectorizer_calls w ++ texts)
             (stdout w)) /\
    SheetName table = flat_map (fun s => repeat (fst s) (List.length (snd s))) xls /\
    Row table = flat_map (fun s => row_numbers (List.length (snd s))) xls /\
    Result table = map verdict (CosineSimilarity table) /\
    List.length (CosineSimilarity table) = List.length (concat (map snd xls)).
Proof.
  intros Hopen Hsheets Hall Hwriter.
  destruct (analyze_scorable os tfidf_kernel path xls w Hopen Hsheets Hall Hwriter)
    as (table & Hrun). exists table, (flat_map sheet_texts xls). exact Hrun.
Qed.

Lemma analyze_excel_file_succeeds_witness :
  exists table texts,
    analyze_excel_file (sample_os (Some "/data/book.xlsx") sample_workbook)
      sample_kernel (ready "/data/book.xlsx") empty_world =
    (inr tt,
     mkWorld [(INFO, "Results saved to: /data/book-results.xlsx")]
             [mkWritten "/data/book-results.xlsx" "Results" table]
             texts
             []) /\
    SheetName table = ["Sheet1"; "Sheet1"] /\
    Row table = [1; 2] /\
    Result table = map verdict (CosineSimilarity table) /\
    List.length (CosineSimilarity table) = 2%nat.
Proof.
  apply (analyze_excel_file_succeeds (sample_os (Some "/data/book.xlsx") sample_workbook)
           sample_kernel "/data/book.xlsx" sample_workbook empty_world).
  - reflexivity.
  - discriminate.
  - reflexivity.
  - reflexivity.
Defined.

(** X17. With a readable workbook and a writer that takes the report, the
    run returns normally exactly when the workbook has at least one sheet
    and every sheet can be processed. *)
Theorem analyze_succeeds_iff
    (os : OS) (tfidf_kernel : string -> string -> PyExc + score) (path : string)
    (xls : Workbook) (w : World) :
  ExcelFile os path = inr xls ->
  ExcelWriter os (report_path path) = None ->
  (fst (analyze_excel_file os tfidf_kernel (ready path) w) = inr tt <->
   xls <> [] /\ forallb (sheet_scorable tfidf_kernel) xls = true).
Proof.
  intros Hopen Hwriter. split.
  - intros Hrun. split.
    + intros ->. rewrite (analyze_no_sheets os tfidf_kernel path w Hopen) in Hrun.
      discriminate.
    + destruct (process_all_ready tfidf_kernel path xls [] w)
        as [(Hall & _) | (_ & e & w1 & Hloop)]; [assumption |].
      rewrite (analyze_sheets_raise os tfidf_kernel path xls w e w1 Hopen Hloop) in Hrun.
      discriminate.
  - intros [Hsheets Hall].
    destruct (analyze_scorable os tfidf_kernel path xls w Hopen Hsheets Hall Hwriter)
      as (table & -> & _). reflexivity.
Qed.

Lemma analyze_succeeds_iff_witness :
  fst (analyze_excel_file (sample_os (Some "/data/book.xlsx") sample_workbook)
         sample_kernel (ready "/data/book.xlsx") empty_world) = inr tt <->
  sample_workbook <> [] /\ forallb (sheet_scorable sample_kernel) sample_workbook = true.
Proof.
  apply (analyze_succeeds_iff (sample_os (Some "/data/book.xlsx") sample_workbook)
           sample_kernel "/data/book.xlsx" sample_workbook empty_world); reflexivity.
Defined.



(** X19. All or nothing: with a writer that takes the report, a run either
    returns having saved exactly one workbook, at the report path, or
    raises having saved none. *)
Theorem analyze_all_or_nothing
    (os : OS) (tfidf_kernel : string -> string -> PyExc + score) (path : string)
    (w : World) :
  ExcelWriter os (report_path path) = None ->
  (exists e,
     fst (analyze_excel_file os tfidf_kernel (ready path) w) = inl e /\
     written (snd (analyze_excel_file os tfidf_kernel (ready path) w)) = written w) \/
  (fst (analyze_excel_file os tfidf_kernel (ready path) w) = inr tt /\
   exists table,
     written (snd (analyze_excel_file os tfidf_kernel (ready path) w)) =
     (written w ++ [mkWritten (report_path path) "Results" table])%list).
Proof.
  intros Hwriter.
  destruct (ExcelFile os path) as [e | xls] eqn:Hopen.
  { left. exists e.
    assert (Hrun : analyze_excel_file os tfidf_kernel (ready path) w =
                   (inl e, logged w ERROR
                             ("An error occurred during analysis: " ++ exc_str e))).
    { unfold analyze_excel_file, try_except.
      cbn [ready excel_file_path getattr].
      unfold bind at 1. unfold ret at 1. cbv beta iota.
      unfold bind at 1. unfold lift at 1. rewrite Hopen. reflexivity. }
    rewrite Hrun. auto. }
  destruct xls as [| sheet rest].
  { left. eexists. rewrite (analyze_no_sheets os tfidf_kernel path w Hopen).
    rewrite log_and_reraise_ready. split; reflexivity. }
  destruct (process_all_ready tfidf_kernel path (sheet :: rest) [] w)
    as [(Hall & _) | (_ & e & w1 & Hloop)].
  - right.
    destruct (analyze_scorable os tfidf_kernel path (sheet :: rest) w Hopen
                ltac:(discriminate) Hall Hwriter) as (table & -> & _).
    split; [reflexivity |]. exists table. reflexivity.
  - left. exists e.
    pose proof (keeps_process_all tfidf_kernel (ready path) (sheet :: rest) w) as Hkeep.
    unfold process_all in Hkeep. rewrite Hloop in Hkeep.
    rewrite (analyze_sheets_raise os tfidf_kernel path (sheet :: rest) w e w1 Hopen Hloop).
    rewrite log_and_reraise_ready. auto.
Qed.

Lemma analyze_all_or_nothing_witness :
  (exists e,
     fst (analyze_excel_file (sample_os (Some "/data/book.xlsx") broken_workbook)
            sample_kernel (ready "/data/book.xlsx") empty_world) = inl e /\
     written (snd (analyze_excel_file (sample_os (Some "/data/book.xlsx") broken_workbook)
            sample_kernel (ready "/data/book.xlsx") empty_world)) = written empty_world) \/
  (fst (analyze_excel_file (sample_os (Some "/data/book.xlsx") broken_workbook)
          sample_kernel (ready "/data/book.xlsx") empty_world) = inr tt /\
   exists table,
     written (snd (analyze_excel_file (sample_os (Some "/data/book.xlsx") broken_workbook)
          sample_kernel (ready "/data/book.xlsx") empty_world)) =
     (written empty_world ++
        [mkWritten (report_path "/data/book.xlsx") "Results" table])%list).
Proof.
  apply (analyze_all_or_nothing (sample_os (Some "/data/book.xlsx") broken_workbook)
           sample_kernel "/data/book.xlsx" empty_world).
  reflexivity.
Defined.

Lemma no_rows_scorable tfidf_kernel (xls : Workbook) :
  Forall (fun s => snd s = []) xls ->
  forallb (sheet_scorable tfidf_kernel) xls = true /\
  flat_map sheet_texts xls = [] /\
  concat (map snd xls) = [] /\
  flat_map (fun s => repeat (fst s) (List.length (snd s))) xls = [] /\
  flat_map (fun s => row_numbers (List.length (snd s))) xls = [].
Proof.
  induction 1 as [| [name rows] rest Hrows _ (IH1 & IH2 & IH3 & IH4 & IH5)];
    [repeat split |].
  simpl in Hrows. subst rows. cbn [forallb flat_map map concat snd app].
  rewrite IH1, IH2, IH3, IH4, IH5. repeat split.
Qed.

(** X20. A workbook with at least one sheet and not a single row is not an
    error: the run returns, having saved a "Results" sheet without rows and
    logged its INFO line; the vectorizer is never called. *)
Theorem empty_sheets_report
    (os : OS) (tfidf_kernel : string -> string -> PyExc + score) (path : string)
    (xls : Workbook) (w : World) :
  ExcelFile os path = inr xls ->
  xls <> [] ->
  Forall (fun s => snd s = []) xls ->
  ExcelWriter os (report_path path) = None ->
  analyze_excel_file os tfidf_kernel (ready path) w =
  (inr tt,
   mkWorld (log_file w ++ [(INFO, "Results saved to: " ++ report_path path)])
           (written w ++ [mkWritten (report_path path) "Results" empty_results])
           (vectorizer_calls w)
           (stdout w)).
Proof.
  intros Hopen Hsheets Hrows Hwriter.
  destruct (no_rows_scorable tfidf_kernel xls Hrows)
    as (Hall & Htexts & Hnone & Hnames & Hnumbers).
  destruct (analyze_scorable os tfidf_kernel path xls w Hopen Hsheets Hall Hwriter)
    as (table & -> & Hn & Hr & Hv & Hl).
  rewrite Htexts, app_nil_r.
  rewrite Hnames in Hn. rewrite Hnumbers in Hr. rewrite Hnone in Hl.
  destruct table as [names numbers scores verdicts].
  cbn [SheetName Row CosineSimilarity Result] in Hn, Hr, Hv, Hl.
  destruct scores; [| discriminate]. cbn [map] in Hv.
  rewrite Hn, Hr, Hv. reflexivity.
Qed.

Lemma empty_sheets_report_witness :
  analyze_excel_file (sample_os (Some "/data/book.xlsx") [("Sheet1", [])])
    sample_kernel (ready "/data/book.xlsx") empty_world =
  (inr tt,
   mkWorld [(INFO, "Results saved to: /data/book-results.xlsx")]
           [mkWritten "/data/book-results.xlsx" "Results" empty_results] [] []).
Proof.
  apply (empty_sheets_report (sample_os (Some "/data/book.xlsx") [("Sheet1", [])])
           sample_kernel "/data/book.xlsx" [("Sheet1", [])] empty_world).
  - reflexivity.
  - discriminate.
  - repeat constructor.
  - reflexivity.
Defined.

(** ** Further properties: the path of the report *)

Lemma string_app_assoc (a b c : string) : (a ++ b) ++ c = a ++ b ++ c.
Proof. induction a as [| x a IH]; simpl; [| rewrite IH]; reflexivity. Qed.

Lemma string_app_length (a b : string) :
  String.length (a ++ b) = (String.length a + String.length b)%nat.
Proof. induction a as [| x a IH]; simpl; [| rewrite IH]; reflexivity. Qed.

Lemma string_app_inv_head (a b c : string) : a ++ b = a ++ c -> b = c.
Proof. induction a as [| x a IH]; simpl; [tauto |]. intros [= H]. auto. Qed.

(** Whether a string starts with [old] is decided by its first
    [length old] characters. *)
Lemma prefix_app_cut (old : string) : forall a u,
  (String.length old <= String.length a)%nat ->
  String.prefix old (a ++ u) = String.prefix old a.
Proof.
  induction old as [| c old IH]; intros a u Hlen; [destruct a, u; reflexivity |].
  destruct a as [| x a]; simpl in Hlen; [lia |].
  simpl. destruct (Ascii.ascii_dec c x); [| reflexivity].
  apply IH. lia.
Qed.

Lemma report_path_stem (stem : string) :
  occurs ".xlsx" (stem ++ ".xls") = false ->
  report_path (stem ++ ".xlsx") = stem ++ "-results.xlsx".
Proof.
  unfold report_path, PyStr.replace.
  induction stem as [| c stem IH]; [reflexivity |].
  intros Hocc. cbn [append occurs] in Hocc.
  apply orb_false_iff in Hocc. destruct Hocc as [Hhere Hlater].
  cbn [append PyStr.replace_go].
  replace (String c (stem ++ ".xlsx")) with (String c (stem ++ ".xls") ++ "x").
  - rewrite prefix_app_cut, Hhere.
    + rewrite IH by assumption. reflexivity.
    + cbn [String.length]. rewrite string_app_length. simpl. lia.
  - cbn [append]. rewrite string_app_assoc. reflexivity.
Qed.

(** X21. For an input path that ends in lowercase ".xlsx" and has no other
    ".xlsx" in it, a run that returns has saved the report next to the
    input, under the stem followed by "-results.xlsx", which is not the
    input path. *)
Theorem report_saved_beside_xlsx
    (os : OS) (tfidf_kernel : string -> string -> PyExc + score) (stem : string)
    (w w' : World) :
  occurs ".xlsx" (stem ++ ".xls") = false ->
  analyze_excel_file os tfidf_kernel (ready (stem ++ ".xlsx")) w = (inr tt, w') ->
  (exists table,
     written w' = (written w ++ [mkWritten (stem ++ "-results.xlsx") "Results" table])%list)
  /\ stem ++ "-results.xlsx" <> stem ++ ".xlsx".
Proof.
  intros Hocc Hrun. split.
  - apply analyze_saves_at in Hrun. destruct Hrun as (table & Hsaved).
    exists table. rewrite Hsaved. fold (report_path (stem ++ ".xlsx")).
    rewrite report_path_stem by assumption. reflexivity.
  - intros Heq. apply string_app_inv_head in Heq. discriminate.
Qed.

Lemma report_saved_beside_xlsx_witness :
  (exists table,
     written (mkWorld [(INFO, "Results saved to: /data/book-results.xlsx")]
                [mkWritten "/data/book-results.xlsx" "Results" empty_results] [] []) =
     (written empty_world ++
        [mkWritten ("/data/book" ++ "-results.xlsx") "Results" table])%list)
  /\ "/data/book" ++ "-results.xlsx" <> "/data/book" ++ ".xlsx".
Proof.
  apply (report_saved_beside_xlsx (sample_os (Some "/data/book.xlsx") [("Sheet1", [])])
           sample_kernel "/data/book" empty_world).
  - reflexivity.
  - reflexivity.
Defined.

(** ** Further properties: the whole script *)

(** X22. End to end: when EXCEL_FILE_PATH names an acceptable workbook
    that has at least one sheet, all sheets can be processed, and the log
    file and the report can be written, the script prints nothing, logs
    the one INFO line and saves the one report, at the report path of the
    absolute input path. *)
Theorem main_succeeds
    (os : OS) (tfidf_kernel : string -> string -> PyExc + score) (p : string)
    (xls : Workbook) (w : World) :
  getenv_EXCEL_FILE_PATH os = Some p ->
  stat os p = RegularFile ->
  excel_extension p = true ->
  FileHandler os "text_similarity.log" = None ->
  ExcelFile os (OsPath.abspath (getcwd os) p) = inr xls ->
  xls <> [] ->
  forallb (sheet_scorable tfidf_kernel) xls = true ->
  ExcelWriter os (report_path (OsPath.abspath (getcwd os) p)) = None ->
  exists table texts,
    main os tfidf_kernel w =
    (inr tt,
     mkWorld (log_file w ++
                [(INFO, "Results saved to: " ++
                        report_path (OsPath.abspath (getcwd os) p))])
             (written w ++
                [mkWritten (report_path (OsPath.abspath (getcwd os) p)) "Results" table])
             (vectorizer_calls w ++ texts)
             (stdout w)).
Proof.
  intros Henv Hstat Hext Hlog Hopen Hsheets Hall Hwriter.
  assert (Hinit : init os w = (inr (ready (OsPath.abspath (getcwd os) p)), w)).
  { unfold init, bind, validate_excel_path, try_except, os_path_exists,
      os_path_isfile, setup_logger.
    rewrite Henv. fold (excel_extension p). rewrite Hstat. cbn [negb].
    rewrite Hext. cbn [negb]. unfold ret at 1. cbv beta iota. rewrite Hlog.
    reflexivity. }
  destruct (analyze_scorable os tfidf_kernel _ xls w Hopen Hsheets Hall Hwriter)
    as (table & Hrun & _).
  exists table, (flat_map sheet_texts xls).
  unfold main, try_except. rewrite Henv.
  unfold bind at 1. unfold ret at 1. cbv beta iota. unfold bind at 1.
  rewrite Hinit, Hrun. reflexivity.
Qed.

Lemma main_succeeds_witness :
  exists table texts,
    main (mkOS (Some "../../data/./book.xlsx") (fun _ => RegularFile) "/home/user"
               (inr "") (fun _ => inr sample_workbook) (fun _ => None)
               (fun _ => None))
         sample_kernel empty_world =
    (inr tt,
     mkWorld [(INFO, "Results saved to: /data/book-results.xlsx")]
             [mkWritten "/data/book-results.xlsx" "Results" table]
             texts
             []).
Proof.
  apply (main_succeeds
           (mkOS (Some "../../data/./book.xlsx") (fun _ => RegularFile) "/home/user"
                 (inr "") (fun _ => inr sample_workbook) (fun _ => None)
                 (fun _ => None))
           sample_kernel "../../data/./book.xlsx" sample_workbook empty_world);
    (reflexivity || discriminate).
Defined.

(** ** The value of the scorer *)







